(** * spliceSheet: the fiber splice-sheet generator of [src/Index.js]

    A shallow embedding of the two listings of [SpliceSheetGenerator] found
    in [src/Index.js], and the properties of the position resolver
    ([calculateFiberPosition]) and of the table builder
    ([generateSpliceSheet], [generateHeaders]).

    - The first listing (lines 1-349, the API-only server) is [Module Api].
    - The second listing (lines 350-763, the server with the front end and
      the download route) is [Module Web].
    - [calculateFiberPosition] and the two colour tables are literally the
      same in both listings (lines 10-11/41-51 and 378-379/388-398) and are
      embedded once; so are [generateSampleAddresses] and the argument the
      route [/generate-custom-splice-sheet] builds from a request body.
    - [Module Upload] holds [parseInputStructure] of both listings, with
      the part of [parseInputFile] that follows the reading of the file.

    JavaScript numbers that hold integers are modelled as [Z].  The model is
    exact as long as every number involved stays within the integers a
    double represents exactly, that is up to [MAX_SAFE_INTEGER] = 2^53 - 1 in
    absolute value; beyond, the code's doubles round and the model does not.
    The properties that depend on the exact value of a number therefore
    bound their inputs by [MAX_SAFE_INTEGER].  The other results of number
    arithmetic that the resolver can produce ([NaN], the two infinities) are
    separate constructors of [value]. *)

From Stdlib Require Import ZArith List String Bool Lia.
From Stdlib Require Import DecimalString.
From Stdlib Require Import Ascii.
Import ListNotations.

Local Open Scope string_scope.
Local Open Scope list_scope.
Local Open Scope Z_scope.

(** ** JavaScript values that occur in a cell or in a resolver result *)

Inductive value : Type :=
| VUndef                (* undefined *)
| VNull                 (* null *)
| VNum (n : Z)          (* an integer-valued number *)
| VNaN                  (* NaN *)
| VInf (negative : bool)(* Infinity, -Infinity *)
| VStr (s : string).

(** [arr[i]] on an array of strings: [undefined] outside [0 .. length-1]. *)
Definition js_index (arr : list string) (i : Z) : value :=
  if i <? 0 then VUndef
  else match nth_error arr (Z.to_nat i) with
       | Some s => VStr s
       | None => VUndef
       end.

(** The decimal text a template literal produces for an integer: every
    digit, which is what JavaScript prints for an integer below 10^21 in
    absolute value (it switches to exponent notation from there on). *)
Definition decimal (n : Z) : string := NilZero.string_of_int (Z.to_int n).

(** ** Fiber colour coding standards (lines 10-11) *)

Definition BUFFER_COLORS : list string :=
  ["BL"; "OR"; "GR"; "BR"; "SL"; "WH"; "RD"; "BK"; "YL"; "VT"; "RS"; "AQ"].

Definition FIBER_COLORS : list string :=
  ["bl"; "or"; "gr"; "br"; "sl"; "wh"; "rd"; "bk"; "yl"; "vt"; "rs"; "aq"].

(** ** The resolver: [calculateFiberPosition] (lines 41-51) *)

Record FiberPosition : Type := mkFiberPosition {
  bufferTube : value;
  bufferColor : value;
  fiberNumber : value;
  fiberColor : value
}.

(** [Math.floor(a / b)] on integers.  For [b <> 0] this is floor division,
    which is [Z.div] whatever the signs; a zero divisor gives an infinity
    or [NaN]. *)
Definition floor_div (a b : Z) : value :=
  if b =? 0 then
    (if a =? 0 then VNaN else VInf (a <? 0))
  else VNum (a / b).

(** [a % b] on integers: the remainder has the sign of the dividend
    ([Z.rem]); [NaN] for a zero divisor. *)
Definition js_rem (a b : Z) : value :=
  if b =? 0 then VNaN else VNum (Z.rem a b).

(** [v + 1]: infinities and [NaN] absorb. *)
Definition plus_one (v : value) : value :=
  match v with
  | VNum n => VNum (n + 1)
  | VInf s => VInf s
  | _ => VNaN
  end.

(** [COLORS[(v - 1) % COLORS.length]]: a non-finite [v] makes the index
    [NaN], and the lookup [undefined]. *)
Definition color_of (colors : list string) (v : value) : value :=
  match v with
  | VNum n => js_index colors (Z.rem (n - 1) (Z.of_nat (List.length colors)))
  | _ => VUndef
  end.

(** The second parameter has the default [12]: [None] is a call that leaves
    it out, as the builder does.  The arithmetic is exact integer
    arithmetic, as the code's is when the index and the tube size are at
    most [MAX_SAFE_INTEGER] in absolute value. *)
Definition calculateFiberPosition (fiberNumber : Z) (fibersPerTube : option Z)
  : FiberPosition :=
  let fibersPerTube := match fibersPerTube with Some f => f | None => 12 end in
  let bufferTubeNumber := plus_one (floor_div (fiberNumber - 1) fibersPerTube) in
  let fiberInTube := plus_one (js_rem (fiberNumber - 1) fibersPerTube) in
  {| bufferTube := bufferTubeNumber;
     bufferColor := color_of BUFFER_COLORS bufferTubeNumber;
     fiberNumber := fiberInTube;
     fiberColor := color_of FIBER_COLORS fiberInTube |}.

(** ** Coercions the builder relies on *)

(** Truthiness, as tested by [if (x)] and [x || y]. *)
Definition truthy (v : value) : bool :=
  match v with
  | VUndef | VNull | VNaN => false
  | VNum n => negb (n =? 0)
  | VInf _ => true
  | VStr s => negb (String.eqb s "")
  end.

(** [a || b]. *)
Definition js_or (a b : value) : value := if truthy a then a else b.

(** The text a template literal substitutes for a value. *)
Definition to_string (v : value) : string :=
  match v with
  | VUndef => "undefined"
  | VNull => "null"
  | VNum n => decimal n
  | VNaN => "NaN"
  | VInf false => "Infinity"
  | VInf true => "-Infinity"
  | VStr s => s
  end.

(** Reading a property that may be absent from an object. *)
Definition prop_str (o : option string) : value :=
  match o with Some s => VStr s | None => VUndef end.

Definition prop_num (o : option Z) : value :=
  match o with Some n => VNum n | None => VUndef end.

(** ** The builder's input *)

Record CableBundle : Type := mkCable {
  name : string;
  fiberCount : Z
}.

Record AddressRecord : Type := mkAddress {
  mst : option string;
  address : option string;
  sheet : option Z;
  terminal : option string
}.

(** Every field of the argument of [generateSpliceSheet] may be left out;
    the destructuring pattern of lines 55-60 supplies the defaults. *)
Record SpliceConfig : Type := mkConfig {
  ports : option Z;
  mainCableName : option string;
  cables : option (list CableBundle);
  addresses : option (list AddressRecord)
}.

Definition ports_of (inputData : SpliceConfig) : Z :=
  match ports inputData with Some p => p | None => 96 end.

Definition mainCableName_of (inputData : SpliceConfig) : string :=
  match mainCableName inputData with Some s => s | None => "FDH108_144F_1-96" end.

Definition cables_of (inputData : SpliceConfig) : list CableBundle :=
  match cables inputData with Some l => l | None => [] end.

Definition addresses_of (inputData : SpliceConfig) : list AddressRecord :=
  match addresses inputData with Some l => l | None => [] end.

(** ** Failure and the port loop *)

(** The only exception the builder could raise on a well-typed argument is
    the [TypeError] of reading a property of [undefined]. *)
Inductive result (A : Type) : Type :=
| Ok (a : A)
| TypeError.

Arguments Ok {A} a.
Arguments TypeError {A}.

Definition bind {A B : Type} (c : result A) (k : A -> result B) : result B :=
  match c with
  | Ok a => k a
  | TypeError => TypeError
  end.

Notation "x <- c ;; k" := (bind c (fun x => k))
  (at level 61, c at next level, right associativity).

(** [addresses[i]]: [None] stands for [undefined]. *)
Definition js_get {A : Type} (arr : list A) (i : Z) : option A :=
  if i <? 0 then None else nth_error arr (Z.to_nat i).

(** The two variables the loop of [generateSpliceSheet] updates. *)
Record LoopState : Type := mkLoopState {
  addressIndex : Z;
  spliceData : list (list value)
}.

(** [for (let port = start; ...; port++) body], unrolled [n] times. *)
Fixpoint for_loop {St : Type} (n : nat) (port : Z)
    (body : Z -> St -> result St) (st : St) : result St :=
  match n with
  | O => Ok st
  | S n' => st' <- body port st ;; for_loop n' (port + 1) body st'
  end.

(** ** First listing (lines 34-129) *)

Module Api.

(** [generateHeaders] (lines 120-129). *)
Definition generateHeaders (cables : list CableBundle) : list value :=
  let headers := [VStr "Port #"; VStr "Cable Name"] in
  let headers :=
    fold_left (fun headers (cable : CableBundle) =>
                 headers ++ [VStr "Port #"; VStr "Cable"; VStr "B#";
                             VStr "(B)"; VStr "F#"; VStr "(F)"])
              cables headers in
  headers ++ [VStr "MST"; VStr "Address"].

(** What the callback of [cables.forEach] pushes (lines 75-88). *)
Definition cableCells (port : Z) (cable : CableBundle) : list value :=
  if port <=? fiberCount cable then
    let fiberPos := calculateFiberPosition port None in
    [VNum port; VStr (name cable); bufferTube fiberPos; bufferColor fiberPos;
     fiberNumber fiberPos; fiberColor fiberPos]
  else
    [VNum port; VStr (name cable); VNull; VNull; VNull; VNull].

(** What the address branch pushes for the record under the cursor
    (lines 94-102). *)
Definition addressCells (addressInfo : AddressRecord) : list value :=
  let row := [prop_str (mst addressInfo); prop_str (address addressInfo)] in
  let row :=
    if truthy (prop_num (sheet addressInfo))
    then row ++ [VStr ("SHEET # " ++ to_string (prop_num (sheet addressInfo)))%string]
    else row in
  if truthy (prop_str (terminal addressInfo))
  then row ++ [prop_str (terminal addressInfo)]
  else row.

(** The body of the port loop (lines 71-113). *)
Definition portBody (mainCableName : string) (cables : list CableBundle)
    (addresses : list AddressRecord) (port : Z) (st : LoopState)
  : result LoopState :=
  let row := [VNum port; VStr mainCableName] in
  let row := fold_left (fun row cable => row ++ cableCells port cable) cables row in
  if addressIndex st <? Z.of_nat (List.length addresses) then
    match js_get addresses (addressIndex st) with
    | None => TypeError
    | Some addressInfo =>
        let row := row ++ addressCells addressInfo in
        let addressIndex' :=
          if (Z.rem port 4 =? 0)
             && (addressIndex st <? Z.of_nat (List.length addresses) - 1)
          then addressIndex st + 1
          else addressIndex st in
        Ok {| addressIndex := addressIndex'; spliceData := spliceData st ++ [row] |}
    end
  else
    let row := row ++ [VStr ""; VStr "Unused"] in
    Ok {| addressIndex := addressIndex st; spliceData := spliceData st ++ [row] |}.

(** The state after the header was pushed and the first [n] ports were
    processed (lines 62-114). *)
Definition runPorts (inputData : SpliceConfig) (n : nat) : result LoopState :=
  let headers := generateHeaders (cables_of inputData) in
  for_loop n 1
    (portBody (mainCableName_of inputData) (cables_of inputData)
              (addresses_of inputData))
    {| addressIndex := 0; spliceData := [headers] |}.

(** [generateSpliceSheet] (lines 54-117): the loop runs while
    [port <= ports], that is [ports] times (not at all for [ports <= 0]). *)
Definition generateSpliceSheet (inputData : SpliceConfig)
  : result (list (list value)) :=
  st <- runPorts inputData (Z.to_nat (ports_of inputData)) ;;
  Ok (spliceData st).

End Api.

(** ** Second listing (lines 381-476) *)

Module Web.

(** [generateHeaders] (lines 467-476). *)
Definition generateHeaders (cables : list CableBundle) : list value :=
  let headers := [VStr "Port #"; VStr "Main Cable"] in
  let headers :=
    fold_left (fun headers (cable : CableBundle) =>
                 headers ++ [VStr "Port #"; VStr "Cable"; VStr "B#";
                             VStr "(B)"; VStr "F#"; VStr "(F)"])
              cables headers in
  headers ++ [VStr "MST"; VStr "Address"].

(** What the callback of [cables.forEach] pushes (lines 422-435). *)
Definition cableCells (port : Z) (cable : CableBundle) : list value :=
  if port <=? fiberCount cable then
    let fiberPos := calculateFiberPosition port None in
    [VNum port; VStr (name cable); bufferTube fiberPos; bufferColor fiberPos;
     fiberNumber fiberPos; fiberColor fiberPos]
  else
    [VStr ""; VStr (name cable); VStr ""; VStr ""; VStr ""; VStr ""].

(** What the address branch pushes for the record under the cursor
    (lines 441-449). *)
Definition addressCells (addressInfo : AddressRecord) : list value :=
  let row := [js_or (prop_str (mst addressInfo)) (VStr "");
              js_or (prop_str (address addressInfo)) (VStr "")] in
  let row :=
    if truthy (prop_num (sheet addressInfo))
    then row ++ [VStr ("SHEET # " ++ to_string (prop_num (sheet addressInfo)))%string]
    else row in
  if truthy (prop_str (terminal addressInfo))
  then row ++ [prop_str (terminal addressInfo)]
  else row.

(** The body of the port loop (lines 418-460). *)
Definition portBody (mainCableName : string) (cables : list CableBundle)
    (addresses : list AddressRecord) (port : Z) (st : LoopState)
  : result LoopState :=
  let row := [VNum port; VStr mainCableName] in
  let row := fold_left (fun row cable => row ++ cableCells port cable) cables row in
  if addressIndex st <? Z.of_nat (List.length addresses) then
    match js_get addresses (addressIndex st) with
    | None => TypeError
    | Some addressInfo =>
        let row := row ++ addressCells addressInfo in
        let addressIndex' :=
          if (Z.rem port 4 =? 0)
             && (addressIndex st <? Z.of_nat (List.length addresses) - 1)
          then addressIndex st + 1
          else addressIndex st in
        Ok {| addressIndex := addressIndex'; spliceData := spliceData st ++ [row] |}
    end
  else
    let row := row ++ [VStr ""; VStr "Unused"] in
    Ok {| addressIndex := addressIndex st; spliceData := spliceData st ++ [row] |}.

(** The state after the header was pushed and the first [n] ports were
    processed (lines 409-461). *)
Definition runPorts (inputData : SpliceConfig) (n : nat) : result LoopState :=
  let headers := generateHeaders (cables_of inputData) in
  for_loop n 1
    (portBody (mainCableName_of inputData) (cables_of inputData)
              (addresses_of inputData))
    {| addressIndex := 0; spliceData := [headers] |}.

(** [generateSpliceSheet] (lines 401-464). *)
Definition generateSpliceSheet (inputData : SpliceConfig)
  : result (list (list value)) :=
  st <- runPorts inputData (Z.to_nat (ports_of inputData)) ;;
  Ok (spliceData st).

End Web.

(** ** Vocabulary of the properties *)

(** The ports the loop visits when it runs [n] times: [1; 2; ...; n]. *)
Definition ports_upto (n : nat) : list Z := map Z.of_nat (seq 1 n).

(** A cell that shows nothing: [null] or the empty string. *)
Definition isBlank (v : value) : bool :=
  match v with
  | VNull => true
  | VStr s => String.eqb s ""
  | _ => false
  end.

(** A numeric field of the resolver's result never decreases when the index
    grows, for a given tube size. *)
Definition monotone_in_index (field : FiberPosition -> value) (fibersPerTube : Z)
  : Prop :=
  forall i j a b,
    1 <= i -> i <= j ->
    field (calculateFiberPosition i (Some fibersPerTube)) = VNum a ->
    field (calculateFiberPosition j (Some fibersPerTube)) = VNum b ->
    a <= b.

(** The position of the address cursor once [done] ports were processed, as
    a closed formula: one step every fourth port, stopping at the last
    record (and staying at 0 when there is no record at all). *)
Definition cursor_formula (len done : Z) : Z :=
  if len =? 0 then 0 else Z.min (done / 4) (len - 1).

(** The row of a data row (table row [p], the header being row 0). *)
Definition row_of_port (table : list (list value)) (p : Z) : option (list value) :=
  js_get table p.

(** The cells of a row that follow the two leading cells and the six-cell
    groups of [ncables] cables. *)
Definition trailing (ncables : nat) (row : list value) : list value :=
  skipn (2 + 6 * ncables) row.

(** One step of the address cursor, as the loop body decides it after it
    pushed the row of [port] (lines 105-107 and 452-454). *)
Definition advance (len port idx : Z) : Z :=
  if (Z.rem port 4 =? 0) && (idx <? len - 1) then idx + 1 else idx.

(** The cells that end a data row when the cursor is at [idx]. *)
Definition trailingCells (addressCells : AddressRecord -> list value)
    (addresses : list AddressRecord) (idx : Z) : list value :=
  match js_get addresses idx with
  | Some addressInfo => addressCells addressInfo
  | None => [VStr ""; VStr "Unused"]
  end.

(** A data row, given the two listing-specific parts and the cursor. *)
Definition dataRow (cableCells : Z -> CableBundle -> list value)
    (addressCells : AddressRecord -> list value)
    (inputData : SpliceConfig) (idx port : Z) : list value :=
  [VNum port; VStr (mainCableName_of inputData)]
  ++ flat_map (cableCells port) (cables_of inputData)
  ++ trailingCells addressCells (addresses_of inputData) idx.

(** The whole table in closed form: the header, then one row per port with
    the cursor given by [cursor_formula]. *)
Definition expectedTable (generateHeaders : list CableBundle -> list value)
    (cableCells : Z -> CableBundle -> list value)
    (addressCells : AddressRecord -> list value)
    (inputData : SpliceConfig) : list (list value) :=
  let len := Z.of_nat (List.length (addresses_of inputData)) in
  generateHeaders (cables_of inputData)
  :: map (fun port => dataRow cableCells addressCells inputData
                        (cursor_formula len (port - 1)) port)
         (ports_upto (Z.to_nat (ports_of inputData))).

(** The six labels a cable contributes to the header row. *)
Definition groupLabels : list value :=
  [VStr "Port #"; VStr "Cable"; VStr "B#"; VStr "(B)"; VStr "F#"; VStr "(F)"].

(** [row] is two leading cells, then one group of cells per cable, in the
    order of [cables] and each accepted by [group_ok], then two to four
    closing cells. *)
Definition has_cable_groups (cables : list CableBundle)
    (group_ok : CableBundle -> list value -> Prop) (row : list value) : Prop :=
  exists lead groups tail,
    row = lead ++ List.concat groups ++ tail /\
    List.length lead = 2%nat /\
    Forall2 group_ok cables groups /\
    (2 <= List.length tail <= 4)%nat.

(** A six-cell group whose second cell is the cable's name. *)
Definition six_cells_named (cable : CableBundle) (group : list value) : Prop :=
  List.length group = 6%nat /\ nth_error group 1 = Some (VStr (name cable)).

(** The rule of the address cursor, for the loop [runPorts] of a listing:
    the cursor is 0 before the first port; processing port [p] moves it by
    one exactly when [p] is a multiple of 4 and a record follows the current
    one, and leaves it alone otherwise; it never passes the last record. *)
Definition cursor_rule (runPorts : SpliceConfig -> nat -> result LoopState) : Prop :=
  forall inputData : SpliceConfig,
    let len := Z.of_nat (List.length (addresses_of inputData)) in
    (exists st0, runPorts inputData 0%nat = Ok st0 /\ addressIndex st0 = 0) /\
    (forall n : nat,
       let p := Z.of_nat (S n) in
       exists st st',
         runPorts inputData n = Ok st /\
         runPorts inputData (S n) = Ok st' /\
         (addressIndex st' = addressIndex st + 1
          <-> p mod 4 = 0 /\ addressIndex st < len - 1) /\
         (addressIndex st' = addressIndex st + 1 \/ addressIndex st' = addressIndex st) /\
         0 <= addressIndex st' /\
         (0 < len -> addressIndex st' <= len - 1)).

(** The cursor has the value [idx] when the loop [runPorts] of a listing
    reaches port [p], that is after [p - 1] ports were processed. *)
Definition cursor_at (runPorts : SpliceConfig -> nat -> result LoopState)
    (inputData : SpliceConfig) (p idx : Z) : Prop :=
  exists st, runPorts inputData (Z.to_nat (p - 1)) = Ok st /\ addressIndex st = idx.

(** The six cells of the [j]-th cable (from 0) in a row. *)
Definition group_at (j : nat) (row : list value) : list value :=
  firstn 6 (skipn (2 + 6 * j) row).

(** ** Sample addresses and the JSON route (both listings) *)

(** The street addresses of [generateSampleAddresses] (lines 195-200 and
    540-545). *)
Definition sampleAddresses : list string :=
  ["2101 MARENGO LK RD"; "1245 E COATS AVE"; "821 E COATS AVE"; "801 E COATS AVE";
   "976 E COATS AVE"; "764 E COATS AVE"; "268 HIGHLAND CIR"; "608 7TH AVE";
   "702 7TH AVE"; "302 TUCKER ST"; "207 TUCKER ST"; "205 TUCKER ST";
   "101 E COATS AVE"; "108 E COATS AVE"].

(** [arr.map((x, index) => f(x, index))], the index starting at [index]. *)
Fixpoint map_indexed {A B : Type} (f : A -> Z -> B) (arr : list A) (index : Z)
  : list B :=
  match arr with
  | [] => []
  | x :: rest => f x index :: map_indexed f rest (index + 1)
  end.

(** The record [generateSampleAddresses] builds for the address at [index]
    (lines 202-207 and 547-552); [index] is never negative there, so
    [Math.floor(index / 3)] is [index / 3] and [index % 10] is [Z.rem]. *)
Definition sampleRecord (addr : string) (index : Z) : AddressRecord :=
  {| mst := Some ("MST_F" ++ decimal (1000 + index) ++ "ECOATSAVE.21082"
                  ++ decimal (Z.rem index 10))%string;
     address := Some addr;
     sheet := Some (index / 3 + 10);
     terminal := if index <? 2 then Some ("T" ++ decimal (index + 1))%string
                 else None |}.

(** [generateSampleAddresses] (lines 194-208 and 539-553, the same text). *)
Definition generateSampleAddresses : list AddressRecord :=
  map_indexed sampleRecord sampleAddresses 0.

(** The default cables of the route [/generate-custom-splice-sheet]
    (lines 298-301 and 668-671). *)
Definition customDefaultCables : list CableBundle :=
  [mkCable "144F(1)" 144; mkCable "144F(2)" 144].

(** The argument the route [/generate-custom-splice-sheet] hands to the
    builder, from the request body (lines 295-310 and 665-680, the same
    text): defaults for the missing keys, and the sample addresses in place
    of an empty address list. *)
Definition customInputData (body : SpliceConfig) : SpliceConfig :=
  let ports := match ports body with Some p => p | None => 96 end in
  let mainCableName :=
    match mainCableName body with Some s => s | None => "FDH108_144F_1-96" end in
  let cables :=
    match cables body with Some l => l | None => customDefaultCables end in
  let addresses := match addresses body with Some l => l | None => [] end in
  {| ports := Some ports;
     mainCableName := Some mainCableName;
     cables := Some cables;
     addresses :=
       Some (if 0 <? Z.of_nat (List.length addresses)
             then addresses else generateSampleAddresses) |}.

(** The [summary] object of the route's answer (lines 318-322, 694-698). *)
Record Summary : Type := mkSummary {
  totalPorts : Z;
  summaryCables : Z;
  summaryAddresses : Z
}.

(** The part of the answer that is computed from the body: the rows sent
    back and the summary.  (The file name and the download link of the
    second listing depend on the clock and are left out.) *)
Record CustomAnswer : Type := mkCustomAnswer {
  answerRows : list (list value);
  answerSummary : Summary
}.

Definition customSummary (body : SpliceConfig) : Summary :=
  let inputData := customInputData body in
  {| totalPorts := ports_of inputData;
     summaryCables := Z.of_nat (List.length (cables_of inputData));
     summaryAddresses := Z.of_nat (List.length (addresses_of inputData)) |}.

(** [arr.slice(0, n)] for [n >= 0]. *)
Definition slice0 {A : Type} (arr : list A) (n : nat) : list A := firstn n arr.

(** First listing, lines 292-332: the answer carries the whole table. *)
Definition api_customRoute (body : SpliceConfig) : result CustomAnswer :=
  spliceData <- Api.generateSpliceSheet (customInputData body) ;;
  Ok {| answerRows := spliceData; answerSummary := customSummary body |}.

(** Second listing, lines 662-709: the answer carries the first ten rows. *)
Definition web_customRoute (body : SpliceConfig) : result CustomAnswer :=
  spliceData <- Web.generateSpliceSheet (customInputData body) ;;
  Ok {| answerRows := slice0 spliceData 10; answerSummary := customSummary body |}.

(** ** Reading an uploaded sheet: text helpers

    A sheet arrives as rows of cells; a cell is a [value] (text, a number,
    or nothing).  Text is taken to be ASCII. *)

Definition char_between (lo hi : nat) (c : ascii) : bool :=
  (lo <=? nat_of_ascii c)%nat && (nat_of_ascii c <=? hi)%nat.

(** [\d]. *)
Definition is_digit (c : ascii) : bool := char_between 48 57 c.

(** The ASCII part of [\s] and of the blanks [parseInt] skips: tab, line
    feed, vertical tab, form feed, carriage return, space. *)
Definition is_space (c : ascii) : bool :=
  char_between 9 13 c || (nat_of_ascii c =? 32)%nat.

Definition to_lower (c : ascii) : ascii :=
  if char_between 65 90 c then ascii_of_nat (nat_of_ascii c + 32) else c.

(** [s.toLowerCase()]. *)
Fixpoint toLowerCase (s : string) : string :=
  match s with
  | EmptyString => EmptyString
  | String c rest => String (to_lower c) (toLowerCase rest)
  end.

(** [s.includes(sub)]. *)
Fixpoint includes (s sub : string) : bool :=
  String.prefix sub s
  || match s with
     | EmptyString => false
     | String _ rest => includes rest sub
     end.

Definition digit_of (c : ascii) : Z := Z.of_nat (nat_of_ascii c) - 48.

(** The number a run of decimal digits denotes, continuing from [acc]. *)
Fixpoint digits_value (acc : Z) (digits : string) : Z :=
  match digits with
  | EmptyString => acc
  | String c rest => digits_value (10 * acc + digit_of c) rest
  end.

Fixpoint skip_spaces (s : string) : string :=
  match s with
  | EmptyString => EmptyString
  | String c rest => if is_space c then skip_spaces rest else s
  end.

(** The longest prefix made of characters accepted by [ok]. *)
Fixpoint leading (ok : ascii -> bool) (s : string) : string :=
  match s with
  | EmptyString => EmptyString
  | String c rest => if ok c then String c (leading ok rest) else EmptyString
  end.

Definition is_hex_digit (c : ascii) : bool :=
  is_digit c || char_between 65 70 c || char_between 97 102 c.

Definition hex_digit_of (c : ascii) : Z :=
  if is_digit c then digit_of c
  else if char_between 65 70 c then Z.of_nat (nat_of_ascii c) - 55
  else Z.of_nat (nat_of_ascii c) - 87.

Fixpoint hex_value (acc : Z) (digits : string) : Z :=
  match digits with
  | EmptyString => acc
  | String c rest => hex_value (16 * acc + hex_digit_of c) rest
  end.

(** [parseInt(s)] on text, without a radix argument: leading blanks, an
    optional sign, an optional [0x]/[0X] that switches to base 16, then the
    longest run of digits; [NaN] when that run is empty. *)
Definition parseInt_string (s : string) : value :=
  let s := skip_spaces s in
  let '(negative, s) :=
    match s with
    | String c rest =>
        if (nat_of_ascii c =? 45)%nat then (true, rest)
        else if (nat_of_ascii c =? 43)%nat then (false, rest)
        else (false, s)
    | EmptyString => (false, s)
    end in
  let '(hex, s) :=
    match s with
    | String c0 (String c1 rest) =>
        if (nat_of_ascii c0 =? 48)%nat
           && ((nat_of_ascii c1 =? 120)%nat || (nat_of_ascii c1 =? 88)%nat)
        then (true, rest) else (false, s)
    | _ => (false, s)
    end in
  let digits := if hex then leading is_hex_digit s else leading is_digit s in
  let magnitude := if hex then hex_value 0 digits else digits_value 0 digits in
  match digits with
  | EmptyString => VNaN
  | String _ _ => VNum (if negative then - magnitude else magnitude)
  end.

(** [parseInt(v)]: the argument is first turned into text. *)
Definition parseInt (v : value) : value := parseInt_string (to_string v).

(** [header.match(/(\d+)F/i)], as the text of the group when there is a
    match.  The leftmost match starts at the beginning of the first run of
    digits that is directly followed by [F] or [f], and the greedy group
    takes the whole run; [run] holds the digits read since the last
    character that was not a digit. *)
Fixpoint match_digits_F (run : string) (s : string) : option string :=
  match s with
  | EmptyString => None
  | String c rest =>
      if is_digit c then match_digits_F (run ++ String c EmptyString)%string rest
      else if ((nat_of_ascii c =? 70)%nat || (nat_of_ascii c =? 102)%nat)
              && negb (String.eqb run "")
      then Some run
      else match_digits_F EmptyString rest
  end.

(** Whether [/Cable\s*(\d+)/i] matches at the very start of [s]. *)
Definition cable_number_here (s : string) : bool :=
  String.prefix "cable" (toLowerCase s)
  && match skip_spaces (String.substring 5 (String.length s - 5) s) with
     | String c _ => is_digit c
     | EmptyString => false
     end.

(** [header.match(/Cable\s*(\d+)/i)] finds a match. *)
Fixpoint matches_cable_number (s : string) : bool :=
  cable_number_here s
  || match s with
     | EmptyString => false
     | String _ rest => matches_cable_number rest
     end.

(** [row[i]]. *)
Definition js_cell (row : list value) (i : nat) : value := nth i row VUndef.

(** A typed address record as the four properties of the object. *)
Definition record_fields (r : AddressRecord) : value * value * value * value :=
  (prop_str (mst r), prop_str (address r), prop_num (sheet r), prop_str (terminal r)).

(** The cables both listings fall back to (lines 183-188 and 528-533). *)
Definition uploadDefaultCables : list CableBundle :=
  [mkCable "144F(1)" 144; mkCable "144F(2)" 144;
   mkCable "48F(3)" 48; mkCable "48F(4)" 48].

(** ** Reading an uploaded sheet: [parseInputStructure] *)

Module Upload.

(** The object built for a data row: its properties hold whatever the
    cells held. *)
Record AddressData : Type := mkAddressData {
  mst : value;
  address : value;
  sheet : value;
  terminal : value
}.

(** What [parseInputStructure] returns; the first listing sets no
    [mainCableName]. *)
Record InputData : Type := mkInputData {
  ports : Z;
  mainCableName : option string;
  cables : list CableBundle;
  addresses : list AddressData
}.

Definition ofRecord (r : AddressRecord) : AddressData :=
  let '(m, a, s, t) := record_fields r in
  {| mst := m; address := a; sheet := s; terminal := t |}.

(** [this.generateSampleAddresses()], as objects. *)
Definition sampleData : list AddressData := map ofRecord generateSampleAddresses.

(** [data.forEach((row, index) => ...)] over a state, from [index] on. *)
Fixpoint forEach_indexed {A St : Type} (f : St -> A -> Z -> St) (arr : list A)
    (index : Z) (st : St) : St :=
  match arr with
  | [] => st
  | x :: rest => forEach_indexed f rest (index + 1) (f st x index)
  end.

(** Second listing, lines 496-536. *)
Module Web.

(** The callback of [headers.forEach] (lines 501-510): the cable a header
    cell stands for, if any.  The fiber count is the number the digits
    denote, which is what [parseInt] returns for a run of digits whose value
    is at most [MAX_SAFE_INTEGER]. *)
Definition cableOfHeader (header : value) : option CableBundle :=
  match header with
  | VStr s =>
      if truthy header && includes (toLowerCase s) "cable" then
        let cableMatch := match_digits_F EmptyString s in
        let fiberCount :=
          match cableMatch with
          | Some digits => digits_value 0 digits
          | None => 144
          end in
        Some {| name := s; fiberCount := fiberCount |}
      else None
  | _ => None
  end.

(** The object built for the row at [index] (lines 515-520). *)
Definition addressData (row : list value) (index : Z) : AddressData :=
  {| mst := js_or (js_cell row 4)
              (VStr ("MST_F" ++ decimal (1000 + index) ++ "ECOATSAVE.21082"
                     ++ decimal (Z.rem index 10))%string);
     address := js_or (js_cell row 5) (VStr "Unused");
     sheet := if truthy (js_cell row 6) then parseInt (js_cell row 6)
              else VNum (index / 3 + 10);
     terminal := js_or (js_cell row 7)
                   (if index <? 2 then VStr ("T" ++ decimal (index + 1))%string
                    else VUndef) |}.

Definition parseInputStructure (headers : list value) (data : list (list value))
  : InputData :=
  let cables :=
    fold_left (fun cables header =>
                 match cableOfHeader header with
                 | Some cable => cables ++ [cable]
                 | None => cables
                 end) headers [] in
  let addresses :=
    forEach_indexed (fun addresses (row : list value) index =>
                       if 0 <? Z.of_nat (List.length row)
                       then addresses ++ [addressData row index]
                       else addresses) data 0 [] in
  {| ports := if 0 <? Z.of_nat (List.length data)
              then Z.max 96 (Z.of_nat (List.length data)) else 96;
     mainCableName := Some "FDH108_144F_1-96";
     cables := if 0 <? Z.of_nat (List.length cables) then cables
               else uploadDefaultCables;
     addresses := if 0 <? Z.of_nat (List.length addresses) then addresses
                  else sampleData |}.

(** [parseInputFile] once the sheet was read into rows (lines 486-489):
    [data[0] || []] are the headers, [data.slice(1)] the data rows. *)
Definition parseSheet (data : list (list value)) : InputData :=
  let headers := match data with h :: _ => h | [] => [] end in
  parseInputStructure headers (tl data).

End Web.

(** First listing, lines 149-191.  [draws k] is the value of
    [Math.floor(Math.random() * 20) + 1] at its [k]-th evaluation. *)
Module Api.

(** The callback of [headers.forEach] (lines 154-165).  A cell that is
    truthy and not text has no [toLowerCase] method. *)
Definition cableOfHeader (header : value) : result (option CableBundle) :=
  if truthy header then
    match header with
    | VStr s =>
        if includes (toLowerCase s) "cable" then
          if matches_cable_number s
          then Ok (Some {| name := s; fiberCount := 144 |})
          else Ok None
        else Ok None
    | _ => TypeError
    end
  else Ok None.

(** The object built for a row (lines 171-176). *)
Definition addressData (draw : Z) (row : list value) : AddressData :=
  {| mst := js_or (js_cell row 4) (VStr "");
     address := js_or (js_cell row 5) (VStr "Unused");
     sheet := VNum draw;
     terminal := if 6 <? Z.of_nat (List.length row) then js_cell row 6 else VUndef |}.

Fixpoint headerCables (headers : list value) (cables : list CableBundle)
  : result (list CableBundle) :=
  match headers with
  | [] => Ok cables
  | header :: rest =>
      found <- cableOfHeader header ;;
      headerCables rest (match found with
                         | Some cable => cables ++ [cable]
                         | None => cables
                         end)
  end.

Definition parseInputStructure (draws : nat -> Z) (headers : list value)
    (data : list (list value)) : result InputData :=
  cables <- headerCables headers [] ;;
  let addresses :=
    fold_left (fun addresses (row : list value) =>
                 if 0 <? Z.of_nat (List.length row)
                 then addresses ++ [addressData (draws (List.length addresses)) row]
                 else addresses) data [] in
  Ok {| ports := 360;
        mainCableName := None;
        cables := if 0 <? Z.of_nat (List.length cables) then cables
                  else uploadDefaultCables;
        addresses := if 0 <? Z.of_nat (List.length addresses) then addresses
                     else sampleData |}.

(** [parseInputFile] once the sheet was read into rows (lines 139-140):
    [data[0]] is [undefined] for a sheet without rows, and [forEach] is
    then called on it. *)
Definition parseSheet (draws : nat -> Z) (data : list (list value))
  : result InputData :=
  match data with
  | [] => TypeError
  | headers :: rest => parseInputStructure draws headers rest
  end.

End Api.

End Upload.

(** ** Vocabulary for the properties of the sheet reader *)

(** Every character of [s] satisfies [ok]. *)
Fixpoint all_chars (ok : ascii -> bool) (s : string) : bool :=
  match s with
  | EmptyString => true
  | String c rest => ok c && all_chars ok rest
  end.

Definition is_F (c : ascii) : bool :=
  (nat_of_ascii c =? 70)%nat || (nat_of_ascii c =? 102)%nat.

(** The objects the second listing builds for the rows of [data], the first
    of which has index [index]: one per row that has cells. *)
Fixpoint webRowRecords (data : list (list value)) (index : Z)
  : list Upload.AddressData :=
  match data with
  | [] => []
  | row :: rest =>
      (if 0 <? Z.of_nat (List.length row)
       then [Upload.Web.addressData row index] else [])
      ++ webRowRecords rest (index + 1)
  end.

(** A header cell the first listing cannot handle: it passes the truthiness
    test and is not text. *)
Definition breaks_api_header (header : value) : bool :=
  truthy header && match header with VStr _ => false | _ => true end.

(** ** Exact range and the cells of a record *)

(** [Number.MAX_SAFE_INTEGER], 2^53 - 1. *)
Definition MAX_SAFE_INTEGER : Z := 9007199254740991.

(** [monotone_in_index] for indices within the exact range. *)
Definition monotone_in_safe_index (field : FiberPosition -> value)
    (fibersPerTube : Z) : Prop :=
  forall i j a b,
    1 <= i -> i <= j -> j <= MAX_SAFE_INTEGER ->
    field (calculateFiberPosition i (Some fibersPerTube)) = VNum a ->
    field (calculateFiberPosition j (Some fibersPerTube)) = VNum b ->
    a <= b.

(** A sheet number, if any, lies within the exact range. *)
Definition safe_sheet (sheet : option Z) : Prop :=
  match sheet with
  | Some s => Z.abs s <= MAX_SAFE_INTEGER
  | None => True
  end.

(** The cell a sheet number gives: the label [SHEET # <sheet>], and nothing
    when the number is absent or 0. *)
Definition sheetCells (sheet : option Z) : list value :=
  match sheet with
  | Some s => if s =? 0 then [] else [VStr ("SHEET # " ++ decimal s)%string]
  | None => []
  end.

(** The cell a terminal gives: its text, and nothing when it is absent or
    empty. *)
Definition terminalCells (terminal : option string) : list value :=
  match terminal with
  | Some t => if String.eqb t "" then [] else [VStr t]
  | None => []
  end.

(** A text property, with the empty string standing in for an absent one. *)
Definition text_or_empty (o : option string) : string :=
  match o with Some s => s | None => "" end.

(** ** Concrete inputs used by the examples below *)

(** Two ports and one cable with a single fiber: port 2 is beyond it. *)
Definition cfg_short_cable : SpliceConfig :=
  mkConfig (Some 2) (Some "M") (Some [mkCable "A" 1]) (Some []).

(** One port, no cable, one record whose address is the empty string. *)
Definition cfg_blank_address : SpliceConfig :=
  mkConfig (Some 1) (Some "M") (Some [])
    (Some [mkAddress (Some "MST1") (Some "") None None]).

(** One port, no cable, one record without an address. *)
Definition cfg_absent_address : SpliceConfig :=
  mkConfig (Some 1) (Some "M") (Some [])
    (Some [mkAddress (Some "MST1") None None None]).

(** One port, one cable, one record with a sheet but without an address. *)
Definition rec_sheet_only : AddressRecord :=
  mkAddress (Some "MST1") None (Some 14) None.

Definition cfg_sheet_only : SpliceConfig :=
  mkConfig (Some 1) (Some "M") (Some [mkCable "A" 1]) (Some [rec_sheet_only]).

(** No port at all, but a cable and an address record. *)
Definition cfg_zero_ports : SpliceConfig :=
  mkConfig (Some 0) None (Some [mkCable "144F(1)" 144])
    (Some [mkAddress (Some "MST_F1000") (Some "2101 MARENGO LK RD") (Some 10) (Some "T1")]).

(** Twelve ports, no cable, two records. *)
Definition cfg_two_records : SpliceConfig :=
  mkConfig (Some 12) (Some "M") (Some [])
    (Some [mkAddress (Some "MST_A") (Some "1 ELM ST") (Some 10) (Some "T1");
           mkAddress (Some "MST_B") (Some "2 OAK ST") None None]).

(** Three ports, one cable, one record with a terminal but no sheet. *)
Definition rec_terminal_only : AddressRecord :=
  mkAddress (Some "MST1") (Some "1 ELM ST") None (Some "T9").

Definition cfg_terminal_only : SpliceConfig :=
  mkConfig (Some 3) (Some "M") (Some [mkCable "A" 4]) (Some [rec_terminal_only]).

(** Two ports within the only cable, one complete record. *)
Definition cfg_full : SpliceConfig :=
  mkConfig (Some 2) (Some "M") (Some [mkCable "A" 4])
    (Some [mkAddress (Some "MST1") (Some "1 ELM ST") (Some 14) None]).

(** A request body with five ports and one address record. *)
Definition body_one_record : SpliceConfig :=
  mkConfig (Some 5) None None
    (Some [mkAddress (Some "MST1") (Some "1 ELM ST") None None]).

(** ** Sanity checks on concrete inputs *)

Example resolve_1 :
  calculateFiberPosition 1 (Some 12)
  = mkFiberPosition (VNum 1) (VStr "BL") (VNum 1) (VStr "bl").
Proof. reflexivity. Qed.

Example resolve_zero_tube :
  calculateFiberPosition 5 (Some 0)
  = mkFiberPosition (VInf false) VUndef VNaN VUndef.
Proof. reflexivity. Qed.

Example decimal_samples :
  decimal 14 = "14" /\ decimal 0 = "0" /\ decimal (-5) = "-5".
Proof. repeat split. Qed.

Example resolve_negative_index :
  calculateFiberPosition (-1) None
  = mkFiberPosition (VNum 0) VUndef (VNum (-1)) VUndef.
Proof. reflexivity. Qed.

Example web_one_record_four_ports (r : AddressRecord) :
  Web.generateSpliceSheet
    (mkConfig (Some 4) (Some "M") (Some [mkCable "A" 4]) (Some [r]))
  = Ok (Web.generateHeaders [mkCable "A" 4]
        :: map (fun p => [VNum p; VStr "M"] ++ Web.cableCells p (mkCable "A" 4)
                         ++ Web.addressCells r) [1; 2; 3; 4]).
Proof. reflexivity. Qed.

Example match_digits_F_samples :
  match_digits_F "" "Cable 48F" = Some "48" /\
  match_digits_F "" "12 cable 034f x 7F" = Some "034" /\
  match_digits_F "" "F12 cable" = None /\
  match_digits_F "" "Cable 1" = None.
Proof. repeat split. Qed.

Example parseInt_samples :
  parseInt (VStr "  -12px") = VNum (-12) /\
  parseInt (VStr "0x1A") = VNum 26 /\
  parseInt (VStr "sheet 3") = VNaN /\
  parseInt (VStr "+007") = VNum 7 /\
  parseInt (VNum 15) = VNum 15 /\
  parseInt (VNum (-4)) = VNum (-4).
Proof. repeat split. Qed.

Example matches_cable_number_samples :
  matches_cable_number "Cable 1" = true /\
  matches_cable_number "Main CABLE   27 (north)" = true /\
  matches_cable_number "Cable A" = false /\
  matches_cable_number "144F(1)" = false.
Proof. repeat split. Qed.

Example web_parse_sample :
  Upload.Web.parseSheet
    [ [VStr "Ports"; VStr "Cable 48F"; VStr "MST"];
      [VNum 1; VUndef; VUndef; VUndef; VUndef; VStr "12 OAK ST"; VNum 7];
      [];
      [VNum 3; VUndef; VUndef; VUndef; VStr "M3"] ]
  = Upload.mkInputData 96 (Some "FDH108_144F_1-96") [mkCable "Cable 48F" 48]
      [ Upload.mkAddressData (VStr "MST_F1000ECOATSAVE.210820") (VStr "12 OAK ST")
          (VNum 7) (VStr "T1");
        Upload.mkAddressData (VStr "M3") (VStr "Unused") (VNum 10) VUndef ].
Proof. reflexivity. Qed.

Example api_two_ports :
  Api.generateSpliceSheet
    (mkConfig (Some 2) (Some "M") (Some [mkCable "A" 1])
       (Some [mkAddress (Some "MST1") (Some "1 ELM ST") (Some 14) (Some "T1")]))
  = Ok [ [VStr "Port #"; VStr "Cable Name"; VStr "Port #"; VStr "Cable"; VStr "B#";
          VStr "(B)"; VStr "F#"; VStr "(F)"; VStr "MST"; VStr "Address"];
         [VNum 1; VStr "M"; VNum 1; VStr "A"; VNum 1; VStr "BL"; VNum 1; VStr "bl";
          VStr "MST1"; VStr "1 ELM ST"; VStr "SHEET # 14"; VStr "T1"];
         [VNum 2; VStr "M"; VNum 2; VStr "A"; VNull; VNull; VNull; VNull;
          VStr "MST1"; VStr "1 ELM ST"; VStr "SHEET # 14"; VStr "T1"] ].
Proof. reflexivity. Qed.

Example web_two_ports :
  Web.generateSpliceSheet
    (mkConfig (Some 2) (Some "M") (Some [mkCable "A" 1]) None)
  = Ok [ [VStr "Port #"; VStr "Main Cable"; VStr "Port #"; VStr "Cable"; VStr "B#";
          VStr "(B)"; VStr "F#"; VStr "(F)"; VStr "MST"; VStr "Address"];
         [VNum 1; VStr "M"; VNum 1; VStr "A"; VNum 1; VStr "BL"; VNum 1; VStr "bl";
          VStr ""; VStr "Unused"];
         [VNum 2; VStr "M"; VStr ""; VStr "A"; VStr ""; VStr ""; VStr ""; VStr "";
          VStr ""; VStr "Unused"] ].
Proof. reflexivity. Qed.

(** ** Lists and rows *)

Lemma fold_left_push {A : Type} (f : A -> list value) (l : list A) (row : list value) :
  fold_left (fun row x => row ++ f x) l row = row ++ flat_map f l.
Proof.
  revert row. induction l as [|x l IH]; intros row; cbn [fold_left flat_map].
  - now rewrite app_nil_r.
  - rewrite IH. now rewrite <- app_assoc.
Qed.

Lemma flat_map_length_const {A : Type} (f : A -> list value) (l : list A) (k : nat) :
  (forall x, List.length (f x) = k) ->
  List.length (flat_map f l) = (k * List.length l)%nat.
Proof.
  intros Hk. induction l as [|x l IH]; cbn [flat_map List.length].
  - lia.
  - rewrite length_app, Hk, IH. lia.
Qed.

Lemma js_get_in_range {A : Type} (arr : list A) (i : Z) :
  0 <= i < Z.of_nat (List.length arr) -> exists x, js_get arr i = Some x.
Proof.
  intros Hi. unfold js_get.
  destruct (i <? 0) eqn:E; [apply Z.ltb_lt in E; lia|].
  destruct (nth_error arr (Z.to_nat i)) as [x|] eqn:N; [now exists x|].
  apply nth_error_None in N. lia.
Qed.

Lemma js_get_out_of_range {A : Type} (arr : list A) (i : Z) :
  Z.of_nat (List.length arr) <= i -> js_get arr i = None.
Proof.
  intros Hi. unfold js_get.
  destruct (i <? 0); [reflexivity|].
  apply nth_error_None. lia.
Qed.

Lemma ports_upto_length (n : nat) : List.length (ports_upto n) = n.
Proof. unfold ports_upto. now rewrite length_map, length_seq. Qed.

Lemma ports_upto_nth (n : nat) (p : Z) :
  1 <= p <= Z.of_nat n ->
  nth_error (ports_upto n) (Z.to_nat p - 1) = Some p.
Proof.
  intros Hp. unfold ports_upto.
  rewrite nth_error_map, nth_error_seq.
  replace (Z.to_nat p - 1 <? n)%nat with true
    by (symmetry; apply Nat.ltb_lt; lia).
  cbn [option_map]. f_equal. lia.
Qed.

Lemma ports_upto_In (n : nat) (p : Z) :
  In p (ports_upto n) <-> 1 <= p <= Z.of_nat n.
Proof.
  unfold ports_upto. rewrite in_map_iff. split.
  - intros [k [<- Hk]]. apply in_seq in Hk. lia.
  - intros Hp. exists (Z.to_nat p). split; [lia|]. apply in_seq. lia.
Qed.

Lemma skipn_past_prefix {A : Type} (n : nat) (l1 l2 : list A) :
  List.length l1 = n -> skipn n (l1 ++ l2) = l2.
Proof.
  intros <-. rewrite skipn_app, Nat.sub_diag, skipn_all. reflexivity.
Qed.

(** Row [p] of a table made of a header and one row per port. *)
Lemma row_of_port_table (header : list value) (f : Z -> list value) (n : nat) (p : Z) :
  1 <= p <= Z.of_nat n ->
  row_of_port (header :: map f (ports_upto n)) p = Some (f p).
Proof.
  intros Hp. unfold row_of_port, js_get.
  destruct (p <? 0) eqn:E; [apply Z.ltb_lt in E; lia|].
  replace (Z.to_nat p) with (S (Z.to_nat p - 1)) by lia.
  cbn [nth_error]. rewrite nth_error_map, ports_upto_nth by lia.
  reflexivity.
Qed.

(** ** The resolver *)

Section Resolver.

Variables (index fibersPerTube : Z).
Hypothesis index_pos : 1 <= index.
Hypothesis tube_pos : 1 <= fibersPerTube.

Let tube := (index - 1) / fibersPerTube + 1.
Let fiber := (index - 1) mod fibersPerTube + 1.

Lemma resolve_fields :
  calculateFiberPosition index (Some fibersPerTube)
  = {| bufferTube := VNum tube;
       bufferColor := js_index BUFFER_COLORS ((tube - 1) mod 12);
       fiberNumber := VNum fiber;
       fiberColor := js_index FIBER_COLORS ((fiber - 1) mod 12) |}.
Proof.
  unfold calculateFiberPosition, floor_div, js_rem, tube, fiber.
  replace (fibersPerTube =? 0) with false by (symmetry; apply Z.eqb_neq; lia).
  cbn [plus_one color_of].
  rewrite (Z.rem_mod_nonneg (index - 1) fibersPerTube) by lia.
  assert (0 <= (index - 1) / fibersPerTube) by (apply Z.div_pos; lia).
  assert (0 <= (index - 1) mod fibersPerTube) by (apply Z.mod_pos_bound; lia).
  change (Z.of_nat (List.length BUFFER_COLORS)) with 12.
  change (Z.of_nat (List.length FIBER_COLORS)) with 12.
  rewrite !Z.rem_mod_nonneg by lia.
  reflexivity.
Qed.

Lemma tube_ge_1 : 1 <= tube.
Proof.
  unfold tube. assert (0 <= (index - 1) / fibersPerTube) by (apply Z.div_pos; lia).
  lia.
Qed.

Lemma fiber_range : 1 <= fiber <= fibersPerTube.
Proof.
  unfold fiber. pose proof (Z.mod_pos_bound (index - 1) fibersPerTube). lia.
Qed.

Lemma tube_fiber_index : (tube - 1) * fibersPerTube + fiber = index.
Proof.
  unfold tube, fiber.
  pose proof (Z.div_mod (index - 1) fibersPerTube). lia.
Qed.

End Resolver.

(** A lookup at an index within [0 .. 11] finds a colour. *)
Lemma js_index_in_bounds (colors : list string) (k : Z) :
  0 <= k < Z.of_nat (List.length colors) ->
  exists s, nth_error colors (Z.to_nat k) = Some s /\ js_index colors k = VStr s.
Proof.
  intros Hk. unfold js_index.
  destruct (k <? 0) eqn:E; [apply Z.ltb_lt in E; lia|].
  destruct (nth_error colors (Z.to_nat k)) as [s|] eqn:N.
  - exists s. split; reflexivity.
  - apply nth_error_None in N. lia.
Qed.

Lemma tube_monotone (f i j : Z) :
  1 <= f -> i <= j -> (i - 1) / f + 1 <= (j - 1) / f + 1.
Proof.
  intros Hf Hij.
  assert ((i - 1) / f <= (j - 1) / f) by (apply Z.div_le_mono; lia).
  lia.
Qed.

(** C1: for every positive index up to [MAX_SAFE_INTEGER], where the code's
    arithmetic is exact, and a tube size of 12 (given or defaulted), the
    resolver returns tube [floor((index-1)/12)+1], in-tube fiber number
    [((index-1) mod 12)+1], and the entries of the two 12-entry colour cycles
    at [(tube-1) mod 12] and [(fiber-1) mod 12]; index 13 resolves to tube 2,
    "OR", fiber 1, "bl" and index 144 to tube 12, "AQ", fiber 12, "aq". *)
Theorem C1_resolver_formula (index : Z) :
  1 <= index <= MAX_SAFE_INTEGER ->
  let pos := calculateFiberPosition index (Some 12) in
  let tube := (index - 1) / 12 + 1 in
  let fiber := (index - 1) mod 12 + 1 in
  bufferTube pos = VNum tube /\
  fiberNumber pos = VNum fiber /\
  (exists bcolor, nth_error BUFFER_COLORS (Z.to_nat ((tube - 1) mod 12)) = Some bcolor
                  /\ bufferColor pos = VStr bcolor) /\
  (exists fcolor, nth_error FIBER_COLORS (Z.to_nat ((fiber - 1) mod 12)) = Some fcolor
                  /\ fiberColor pos = VStr fcolor) /\
  calculateFiberPosition index None = pos /\
  List.length BUFFER_COLORS = 12%nat /\
  List.length FIBER_COLORS = 12%nat /\
  calculateFiberPosition 13 (Some 12)
  = mkFiberPosition (VNum 2) (VStr "OR") (VNum 1) (VStr "bl") /\
  calculateFiberPosition 144 (Some 12)
  = mkFiberPosition (VNum 12) (VStr "AQ") (VNum 12) (VStr "aq").
Proof.
  intros Hi pos tube fiber.
  assert (Hpos : pos = {| bufferTube := VNum tube;
                          bufferColor := js_index BUFFER_COLORS ((tube - 1) mod 12);
                          fiberNumber := VNum fiber;
                          fiberColor := js_index FIBER_COLORS ((fiber - 1) mod 12) |})
    by (apply resolve_fields; lia).
  rewrite Hpos. cbn [bufferTube fiberNumber bufferColor fiberColor].
  repeat split; try reflexivity.
  - apply js_index_in_bounds. apply Z.mod_pos_bound. reflexivity.
  - apply js_index_in_bounds. apply Z.mod_pos_bound. reflexivity.
  - exact Hpos.
Qed.

Lemma C1_resolver_formula_witness :
  1 <= 25 <= MAX_SAFE_INTEGER /\
  bufferTube (calculateFiberPosition 25 (Some 12)) = VNum 3.
Proof.
  assert (H : 1 <= 25 <= MAX_SAFE_INTEGER) by (unfold MAX_SAFE_INTEGER; lia).
  split; [exact H | exact (proj1 (C1_resolver_formula 25 H))].
Defined.

(** C8: for every index and tube size from 1 to [MAX_SAFE_INTEGER], where
    the code's arithmetic is exact, the resolver returns a position made of
    two finite numbers and two colour strings: the fiber number lies in
    [1 .. fibersPerTube], and the two indices the code computes for the
    colour tables lie in [0 .. 11], where the lookups hit an entry. *)
Theorem C8_resolver_total (index fibersPerTube : Z) :
  1 <= index <= MAX_SAFE_INTEGER ->
  1 <= fibersPerTube <= MAX_SAFE_INTEGER ->
  exists tube fiber bcolor fcolor,
    calculateFiberPosition index (Some fibersPerTube)
    = mkFiberPosition (VNum tube) (VStr bcolor) (VNum fiber) (VStr fcolor) /\
    1 <= tube /\
    1 <= fiber <= fibersPerTube /\
    0 <= Z.rem (tube - 1) (Z.of_nat (List.length BUFFER_COLORS)) < 12 /\
    0 <= Z.rem (fiber - 1) (Z.of_nat (List.length FIBER_COLORS)) < 12 /\
    nth_error BUFFER_COLORS
      (Z.to_nat (Z.rem (tube - 1) (Z.of_nat (List.length BUFFER_COLORS)))) = Some bcolor /\
    nth_error FIBER_COLORS
      (Z.to_nat (Z.rem (fiber - 1) (Z.of_nat (List.length FIBER_COLORS)))) = Some fcolor.
Proof.
  intros [Hi _] [Hf _].
  pose proof (tube_ge_1 index fibersPerTube Hi Hf) as Ht.
  pose proof (fiber_range index fibersPerTube Hf) as Hk.
  cbv zeta in Ht, Hk.
  set (tube := (index - 1) / fibersPerTube + 1) in *.
  set (fiber := (index - 1) mod fibersPerTube + 1) in *.
  destruct (js_index_in_bounds BUFFER_COLORS ((tube - 1) mod 12)) as [bc [Nb Jb]];
    [apply Z.mod_pos_bound; reflexivity|].
  destruct (js_index_in_bounds FIBER_COLORS ((fiber - 1) mod 12)) as [fc [Nf Jf]];
    [apply Z.mod_pos_bound; reflexivity|].
  exists tube, fiber, bc, fc.
  change (Z.of_nat (List.length BUFFER_COLORS)) with 12.
  change (Z.of_nat (List.length FIBER_COLORS)) with 12.
  rewrite !Z.rem_mod_nonneg by lia.
  pose proof (Z.mod_pos_bound (tube - 1) 12 eq_refl).
  pose proof (Z.mod_pos_bound (fiber - 1) 12 eq_refl).
  repeat split; try lia; try assumption.
  rewrite (resolve_fields index fibersPerTube Hi Hf). cbv zeta.
  fold tube fiber. rewrite Jb, Jf. reflexivity.
Qed.

Lemma C8_resolver_total_witness :
  1 <= 30 <= MAX_SAFE_INTEGER /\ 1 <= 8 <= MAX_SAFE_INTEGER /\
  exists tube fiber bcolor fcolor,
    calculateFiberPosition 30 (Some 8)
    = mkFiberPosition (VNum tube) (VStr bcolor) (VNum fiber) (VStr fcolor) /\
    1 <= tube /\
    1 <= fiber <= 8 /\
    0 <= Z.rem (tube - 1) (Z.of_nat (List.length BUFFER_COLORS)) < 12 /\
    0 <= Z.rem (fiber - 1) (Z.of_nat (List.length FIBER_COLORS)) < 12 /\
    nth_error BUFFER_COLORS
      (Z.to_nat (Z.rem (tube - 1) (Z.of_nat (List.length BUFFER_COLORS)))) = Some bcolor /\
    nth_error FIBER_COLORS
      (Z.to_nat (Z.rem (fiber - 1) (Z.of_nat (List.length FIBER_COLORS)))) = Some fcolor.
Proof.
  assert (Hi : 1 <= 30 <= MAX_SAFE_INTEGER) by (unfold MAX_SAFE_INTEGER; lia).
  assert (Hf : 1 <= 8 <= MAX_SAFE_INTEGER) by (unfold MAX_SAFE_INTEGER; lia).
  split; [exact Hi | split; [exact Hf | exact (C8_resolver_total 30 8 Hi Hf)]].
Defined.

(** The in-tube fiber number falls back to 1 at a tube boundary: it is 12
    at index 12 and 1 at index 13, so it is not monotone in the index. *)
Lemma C6_fiber_number_not_monotone :
  fiberNumber (calculateFiberPosition 12 (Some 12)) = VNum 12 /\
  fiberNumber (calculateFiberPosition 13 (Some 12)) = VNum 1 /\
  ~ monotone_in_index fiberNumber 12.
Proof.
  split; [reflexivity | split; [reflexivity |]].
  intros M.
  specialize (M 12 13 12 1 ltac:(lia) ltac:(lia) eq_refl eq_refl). lia.
Qed.

(** C6 (amended): for every tube size and all indices from 1 to
    [MAX_SAFE_INTEGER], where the code's arithmetic is exact, the buffer
    tube never decreases when the index grows, and tube and fiber number
    together determine the index ([(tube-1) * fibersPerTube + fiber = index]),
    so the pair grows strictly in lexicographic order; the fiber number
    alone has period [fibersPerTube]; the tube number keeps growing past 12
    while the buffer colour repeats after 12 tubes. *)
Theorem C6_tube_monotone_fiber_wraps (fibersPerTube : Z) :
  1 <= fibersPerTube <= MAX_SAFE_INTEGER ->
  monotone_in_safe_index bufferTube fibersPerTube /\
  (forall i, 1 <= i <= MAX_SAFE_INTEGER ->
     exists t k,
       bufferTube (calculateFiberPosition i (Some fibersPerTube)) = VNum t /\
       fiberNumber (calculateFiberPosition i (Some fibersPerTube)) = VNum k /\
       (t - 1) * fibersPerTube + k = i /\
       (i + fibersPerTube <= MAX_SAFE_INTEGER ->
        fiberNumber (calculateFiberPosition (i + fibersPerTube) (Some fibersPerTube))
        = VNum k) /\
       (i + 12 * fibersPerTube <= MAX_SAFE_INTEGER ->
        bufferTube (calculateFiberPosition (i + 12 * fibersPerTube) (Some fibersPerTube))
        = VNum (t + 12) /\
        bufferColor (calculateFiberPosition (i + 12 * fibersPerTube) (Some fibersPerTube))
        = bufferColor (calculateFiberPosition i (Some fibersPerTube)))) /\
  (forall i j ti ki tj kj,
     1 <= i -> i < j -> j <= MAX_SAFE_INTEGER ->
     bufferTube (calculateFiberPosition i (Some fibersPerTube)) = VNum ti ->
     fiberNumber (calculateFiberPosition i (Some fibersPerTube)) = VNum ki ->
     bufferTube (calculateFiberPosition j (Some fibersPerTube)) = VNum tj ->
     fiberNumber (calculateFiberPosition j (Some fibersPerTube)) = VNum kj ->
     ti < tj \/ (ti = tj /\ ki < kj)).
Proof.
  intros [Hf _]. split; [|split].
  - intros i j a b Hi Hij _ Ha Hb.
    rewrite resolve_fields in Ha, Hb by lia.
    cbn in Ha, Hb. injection Ha as <-. injection Hb as <-.
    apply tube_monotone; lia.
  - intros i [Hi _].
    exists ((i - 1) / fibersPerTube + 1), ((i - 1) mod fibersPerTube + 1).
    rewrite !resolve_fields by lia. cbn [bufferTube fiberNumber bufferColor].
    replace (i + fibersPerTube - 1) with (i - 1 + 1 * fibersPerTube) by lia.
    replace (i + 12 * fibersPerTube - 1) with (i - 1 + 12 * fibersPerTube) by lia.
    rewrite Z.mod_add, Z.div_add by lia.
    split; [reflexivity|]. split; [reflexivity|].
    split; [apply tube_fiber_index; lia|].
    split; [intros _; reflexivity|].
    intros _. split.
    + f_equal. lia.
    + f_equal.
      replace ((i - 1) / fibersPerTube + 12 + 1 - 1)
        with ((i - 1) / fibersPerTube + 1 - 1 + 1 * 12) by lia.
      apply Z.mod_add. lia.
  - intros i j ti ki tj kj Hi Hij _ Hti Hki Htj Hkj.
    rewrite resolve_fields in Hti, Hki, Htj, Hkj by lia.
    cbn in Hti, Hki, Htj, Hkj.
    injection Hti as <-. injection Hki as <-. injection Htj as <-. injection Hkj as <-.
    pose proof (tube_fiber_index i fibersPerTube) as Ei.
    pose proof (tube_fiber_index j fibersPerTube) as Ej.
    pose proof (fiber_range i fibersPerTube Hf) as Ri.
    pose proof (fiber_range j fibersPerTube Hf) as Rj.
    cbv zeta in Ei, Ej, Ri, Rj.
    assert (Hm : (i - 1) / fibersPerTube <= (j - 1) / fibersPerTube)
      by (apply Z.div_le_mono; lia).
    destruct (Z.eq_dec ((i - 1) / fibersPerTube) ((j - 1) / fibersPerTube)) as [E|N].
    + right. split; [lia|]. rewrite E in Ei. lia.
    + left. lia.
Qed.

Lemma C6_tube_monotone_fiber_wraps_witness :
  1 <= 12 <= MAX_SAFE_INTEGER /\ monotone_in_safe_index bufferTube 12.
Proof.
  assert (H : 1 <= 12 <= MAX_SAFE_INTEGER) by (unfold MAX_SAFE_INTEGER; lia).
  split; [exact H | exact (proj1 (C6_tube_monotone_fiber_wraps 12 H))].
Defined.

(** ** The address cursor *)

Lemma cursor_formula_nonneg (len done : Z) :
  0 <= len -> 0 <= done -> 0 <= cursor_formula len done.
Proof.
  intros Hl Hd. unfold cursor_formula.
  destruct (len =? 0) eqn:E; [lia|]. apply Z.eqb_neq in E.
  assert (0 <= done / 4) by (apply Z.div_pos; lia). lia.
Qed.

Lemma cursor_formula_in_range (len done : Z) :
  0 < len -> 0 <= done -> 0 <= cursor_formula len done < len.
Proof.
  intros Hl Hd. unfold cursor_formula.
  replace (len =? 0) with false by (symmetry; apply Z.eqb_neq; lia).
  assert (0 <= done / 4) by (apply Z.div_pos; lia). lia.
Qed.

(** The closed formula follows the step of the loop body. *)
Lemma advance_cursor_formula (len : Z) (n : nat) :
  0 <= len ->
  advance len (Z.of_nat (S n)) (cursor_formula len (Z.of_nat n))
  = cursor_formula len (Z.of_nat (S n)).
Proof.
  intros Hl. unfold advance, cursor_formula.
  rewrite Z.rem_mod_nonneg by lia.
  destruct (len =? 0) eqn:E.
  - apply Z.eqb_eq in E. subst len.
    replace (0 <? 0 - 1) with false by reflexivity.
    now rewrite andb_false_r.
  - apply Z.eqb_neq in E.
    destruct (Z.of_nat (S n) mod 4 =? 0) eqn:M;
      [apply Z.eqb_eq in M | apply Z.eqb_neq in M];
      destruct (Z.min (Z.of_nat n / 4) (len - 1) <? len - 1) eqn:L;
      [apply Z.ltb_lt in L | apply Z.ltb_ge in L
      |apply Z.ltb_lt in L | apply Z.ltb_ge in L];
      cbn [andb]; Z.to_euclidean_division_equations; lia.
Qed.

Section PortLoop.

Variable body : Z -> LoopState -> result LoopState.
Variable len : Z.
Variable rowAt : Z -> Z -> list value.

Hypothesis len_nonneg : 0 <= len.
Hypothesis body_spec : forall port st,
  0 <= addressIndex st ->
  body port st
  = Ok {| addressIndex := advance len port (addressIndex st);
          spliceData := spliceData st ++ [rowAt (addressIndex st) port] |}.

(** Running [n] more ports after [m] ports were processed. *)
Lemma for_loop_from (n m : nat) (data : list (list value)) :
  for_loop n (Z.of_nat (S m)) body
    {| addressIndex := cursor_formula len (Z.of_nat m); spliceData := data |}
  = Ok {| addressIndex := cursor_formula len (Z.of_nat (m + n));
          spliceData :=
            data ++ map (fun port => rowAt (cursor_formula len (port - 1)) port)
                        (map Z.of_nat (seq (S m) n)) |}.
Proof.
  revert m data. induction n as [|n IH]; intros m data.
  - cbn [for_loop seq map]. now rewrite app_nil_r, Nat.add_0_r.
  - cbn [for_loop]. rewrite body_spec
      by (cbn [addressIndex]; apply cursor_formula_nonneg; lia).
    cbn [bind addressIndex spliceData].
    rewrite advance_cursor_formula by assumption.
    replace (Z.of_nat (S m) + 1) with (Z.of_nat (S (S m))) by lia.
    rewrite IH. cbn [seq map].
    replace (Z.of_nat (S m) - 1) with (Z.of_nat m) by lia.
    rewrite <- app_assoc. cbn [app].
    now replace (S m + n)%nat with (m + S n)%nat by lia.
Qed.

Lemma for_loop_from_start (n : nat) (header : list value) :
  for_loop n 1 body {| addressIndex := 0; spliceData := [header] |}
  = Ok {| addressIndex := cursor_formula len (Z.of_nat n);
          spliceData :=
            header :: map (fun port => rowAt (cursor_formula len (port - 1)) port)
                          (ports_upto n) |}.
Proof.
  pose proof (for_loop_from n 0 [header]) as H.
  replace (cursor_formula len (Z.of_nat 0)) with 0 in H.
  - exact H.
  - unfold cursor_formula. change (Z.of_nat 0 / 4) with 0.
    destruct (len =? 0) eqn:E; [reflexivity | apply Z.eqb_neq in E; lia].
Qed.

End PortLoop.

(** ** The loop bodies of the two listings *)

(** Both bodies have the same shape; only [cableCells] and [addressCells]
    differ, so one script proves both. *)
Ltac body_shape portBody :=
  let Hidx := fresh "Hidx" in
  let Hlt := fresh "Hlt" in
  let Hget := fresh "Hget" in
  let addressInfo := fresh "addressInfo" in
  intros Hidx; unfold portBody, dataRow, trailingCells, advance;
  rewrite fold_left_push;
  match goal with
  | |- context [?i <? Z.of_nat (List.length ?l)] =>
      destruct (i <? Z.of_nat (List.length l)) eqn:Hlt
  end;
  [ apply Z.ltb_lt in Hlt;
    match goal with
    | |- context [js_get ?l ?i] =>
        destruct (js_get_in_range l i ltac:(lia)) as [addressInfo Hget];
        rewrite Hget
    end;
    rewrite <- app_assoc; reflexivity
  | apply Z.ltb_ge in Hlt;
    rewrite js_get_out_of_range by lia;
    match goal with
    | |- context [?i <? ?n - 1] =>
        replace (i <? n - 1) with false by (symmetry; apply Z.ltb_ge; lia)
    end;
    rewrite andb_false_r, <- app_assoc; reflexivity ].

Lemma api_portBody_shape (inputData : SpliceConfig) (port : Z) (st : LoopState) :
  0 <= addressIndex st ->
  Api.portBody (mainCableName_of inputData) (cables_of inputData)
    (addresses_of inputData) port st
  = Ok {| addressIndex :=
            advance (Z.of_nat (List.length (addresses_of inputData))) port (addressIndex st);
          spliceData :=
            spliceData st
            ++ [dataRow Api.cableCells Api.addressCells inputData (addressIndex st) port] |}.
Proof. body_shape Api.portBody. Qed.

Lemma web_portBody_shape (inputData : SpliceConfig) (port : Z) (st : LoopState) :
  0 <= addressIndex st ->
  Web.portBody (mainCableName_of inputData) (cables_of inputData)
    (addresses_of inputData) port st
  = Ok {| addressIndex :=
            advance (Z.of_nat (List.length (addresses_of inputData))) port (addressIndex st);
          spliceData :=
            spliceData st
            ++ [dataRow Web.cableCells Web.addressCells inputData (addressIndex st) port] |}.
Proof. body_shape Web.portBody. Qed.

(** The state of the loop after [n] ports, in closed form. *)
Lemma api_runPorts_closed (inputData : SpliceConfig) (n : nat) :
  let len := Z.of_nat (List.length (addresses_of inputData)) in
  Api.runPorts inputData n
  = Ok {| addressIndex := cursor_formula len (Z.of_nat n);
          spliceData :=
            Api.generateHeaders (cables_of inputData)
            :: map (fun port => dataRow Api.cableCells Api.addressCells inputData
                                  (cursor_formula len (port - 1)) port)
                   (ports_upto n) |}.
Proof.
  intros len. unfold Api.runPorts.
  apply (for_loop_from_start _ len
           (dataRow Api.cableCells Api.addressCells inputData)); [lia|].
  intros port st. apply api_portBody_shape.
Qed.

Lemma web_runPorts_closed (inputData : SpliceConfig) (n : nat) :
  let len := Z.of_nat (List.length (addresses_of inputData)) in
  Web.runPorts inputData n
  = Ok {| addressIndex := cursor_formula len (Z.of_nat n);
          spliceData :=
            Web.generateHeaders (cables_of inputData)
            :: map (fun port => dataRow Web.cableCells Web.addressCells inputData
                                  (cursor_formula len (port - 1)) port)
                   (ports_upto n) |}.
Proof.
  intros len. unfold Web.runPorts.
  apply (for_loop_from_start _ len
           (dataRow Web.cableCells Web.addressCells inputData)); [lia|].
  intros port st. apply web_portBody_shape.
Qed.

(** The builder never fails, and its table is the closed form. *)
Lemma api_table_closed (inputData : SpliceConfig) :
  Api.generateSpliceSheet inputData
  = Ok (expectedTable Api.generateHeaders Api.cableCells Api.addressCells inputData).
Proof.
  unfold Api.generateSpliceSheet. rewrite api_runPorts_closed. reflexivity.
Qed.

Lemma web_table_closed (inputData : SpliceConfig) :
  Web.generateSpliceSheet inputData
  = Ok (expectedTable Web.generateHeaders Web.cableCells Web.addressCells inputData).
Proof.
  unfold Web.generateSpliceSheet. rewrite web_runPorts_closed. reflexivity.
Qed.

(** ** Shape of the rows *)

Lemma api_cableCells_named (port : Z) (cable : CableBundle) :
  six_cells_named cable (Api.cableCells port cable).
Proof.
  unfold six_cells_named, Api.cableCells.
  destruct (port <=? fiberCount cable); split; reflexivity.
Qed.

Lemma web_cableCells_named (port : Z) (cable : CableBundle) :
  six_cells_named cable (Web.cableCells port cable).
Proof.
  unfold six_cells_named, Web.cableCells.
  destruct (port <=? fiberCount cable); split; reflexivity.
Qed.

Lemma api_addressCells_length (addressInfo : AddressRecord) :
  (2 <= List.length (Api.addressCells addressInfo) <= 4)%nat.
Proof.
  unfold Api.addressCells.
  destruct (truthy (prop_num (sheet addressInfo)));
    destruct (truthy (prop_str (terminal addressInfo))); cbn; lia.
Qed.

Lemma web_addressCells_length (addressInfo : AddressRecord) :
  (2 <= List.length (Web.addressCells addressInfo) <= 4)%nat.
Proof.
  unfold Web.addressCells.
  destruct (truthy (prop_num (sheet addressInfo)));
    destruct (truthy (prop_str (terminal addressInfo))); cbn; lia.
Qed.

Lemma api_headers_closed (cables : list CableBundle) :
  Api.generateHeaders cables
  = [VStr "Port #"; VStr "Cable Name"]
    ++ flat_map (fun _ => groupLabels) cables ++ [VStr "MST"; VStr "Address"].
Proof.
  unfold Api.generateHeaders.
  rewrite (fold_left_push (fun _ : CableBundle => groupLabels)).
  now rewrite <- app_assoc.
Qed.

Lemma web_headers_closed (cables : list CableBundle) :
  Web.generateHeaders cables
  = [VStr "Port #"; VStr "Main Cable"]
    ++ flat_map (fun _ => groupLabels) cables ++ [VStr "MST"; VStr "Address"].
Proof.
  unfold Web.generateHeaders.
  rewrite (fold_left_push (fun _ : CableBundle => groupLabels)).
  now rewrite <- app_assoc.
Qed.

Lemma Forall2_map_right {A B : Type} (P : A -> B -> Prop) (f : A -> B) (l : list A) :
  (forall x, P x (f x)) -> Forall2 P l (map f l).
Proof.
  intros H. induction l as [|x l IH]; cbn [map]; constructor; auto.
Qed.

Section RowShape.

Variable cableCells : Z -> CableBundle -> list value.
Variable addressCells : AddressRecord -> list value.
Variable inputData : SpliceConfig.

Hypothesis cells_named : forall port cable, six_cells_named cable (cableCells port cable).
Hypothesis address_len : forall addressInfo,
  (2 <= List.length (addressCells addressInfo) <= 4)%nat.

Lemma groups_length (port : Z) :
  List.length (flat_map (cableCells port) (cables_of inputData))
  = (6 * List.length (cables_of inputData))%nat.
Proof.
  apply flat_map_length_const. intros cable. apply cells_named.
Qed.

Lemma trailingCells_length (idx : Z) :
  (2 <= List.length (trailingCells addressCells (addresses_of inputData) idx) <= 4)%nat.
Proof.
  unfold trailingCells.
  destruct (js_get (addresses_of inputData) idx); [apply address_len | cbn; lia].
Qed.

Lemma trailing_dataRow (idx port : Z) :
  trailing (List.length (cables_of inputData))
    (dataRow cableCells addressCells inputData idx port)
  = trailingCells addressCells (addresses_of inputData) idx.
Proof.
  unfold trailing, dataRow. rewrite app_assoc.
  apply skipn_past_prefix.
  rewrite length_app, groups_length. reflexivity.
Qed.

Lemma dataRow_groups (idx port : Z) :
  has_cable_groups (cables_of inputData) six_cells_named
    (dataRow cableCells addressCells inputData idx port).
Proof.
  exists [VNum port; VStr (mainCableName_of inputData)],
         (map (cableCells port) (cables_of inputData)),
         (trailingCells addressCells (addresses_of inputData) idx).
  rewrite <- flat_map_concat_map.
  repeat split.
  - apply Forall2_map_right. apply cells_named.
  - apply trailingCells_length.
  - apply trailingCells_length.
Qed.

End RowShape.

Lemma header_groups (lead : value) (cables : list CableBundle) :
  has_cable_groups cables (fun _ group => group = groupLabels)
    ([VStr "Port #"; lead]
     ++ flat_map (fun _ => groupLabels) cables ++ [VStr "MST"; VStr "Address"]).
Proof.
  exists [VStr "Port #"; lead], (map (fun _ => groupLabels) cables),
         [VStr "MST"; VStr "Address"].
  rewrite <- flat_map_concat_map.
  repeat split.
  - now apply Forall2_map_right.
  - cbn. lia.
  - cbn. lia.
Qed.

Lemma header_length (lead : value) (cables : list CableBundle) :
  List.length ([VStr "Port #"; lead]
               ++ flat_map (fun _ => groupLabels) cables ++ [VStr "MST"; VStr "Address"])
  = (2 + 6 * List.length cables + 2)%nat.
Proof.
  rewrite !length_app, (flat_map_length_const _ _ 6) by reflexivity.
  reflexivity.
Qed.

(** ** The builder *)

Lemma cursor_rule_of_closed (runPorts : SpliceConfig -> nat -> result LoopState)
    (data : SpliceConfig -> nat -> list (list value)) :
  (forall inputData n,
     runPorts inputData n
     = Ok {| addressIndex :=
               cursor_formula (Z.of_nat (List.length (addresses_of inputData))) (Z.of_nat n);
             spliceData := data inputData n |}) ->
  cursor_rule runPorts.
Proof.
  intros Hrun inputData len. split.
  - eexists. split; [apply Hrun|]. cbn [addressIndex].
    unfold cursor_formula. change (Z.of_nat 0 / 4) with 0.
    destruct (Z.of_nat (List.length (addresses_of inputData)) =? 0) eqn:E;
      [reflexivity | apply Z.eqb_neq in E; lia].
  - intros n p. do 2 eexists.
    split; [apply Hrun|]. split; [apply Hrun|].
    cbn [addressIndex]. fold len.
    assert (Hlen : 0 <= len) by (unfold len; lia).
    rewrite <- (advance_cursor_formula len n Hlen).
    pose proof (cursor_formula_nonneg len (Z.of_nat n) Hlen ltac:(lia)) as Hc.
    set (idx := cursor_formula len (Z.of_nat n)) in *.
    assert (Hin : 0 < len -> idx < len)
      by (intros Hpos; apply (cursor_formula_in_range len (Z.of_nat n)); lia).
    unfold advance. fold p. rewrite Z.rem_mod_nonneg by (unfold p; lia).
    destruct (p mod 4 =? 0) eqn:M;
      [apply Z.eqb_eq in M | apply Z.eqb_neq in M];
      (destruct (idx <? len - 1) eqn:L;
       [apply Z.ltb_lt in L | apply Z.ltb_ge in L]);
      cbn [andb]; repeat split; intros; try lia; auto; try tauto.
Qed.

(** The cells the two listings push for a record, written out. *)
Lemma js_or_text (o : option string) :
  js_or (prop_str o) (VStr "") = VStr (text_or_empty o).
Proof.
  destruct o as [t|]; [|reflexivity].
  unfold js_or. cbn [prop_str truthy text_or_empty].
  destruct (String.eqb t "") eqn:E; [|reflexivity].
  apply String.eqb_eq in E. now subst t.
Qed.

Lemma api_addressCells_explicit (addressInfo : AddressRecord) :
  Api.addressCells addressInfo
  = [prop_str (mst addressInfo); prop_str (address addressInfo)]
    ++ sheetCells (sheet addressInfo) ++ terminalCells (terminal addressInfo).
Proof.
  unfold Api.addressCells, sheetCells, terminalCells.
  destruct (sheet addressInfo) as [s|], (terminal addressInfo) as [t|];
    cbn [prop_num prop_str truthy to_string];
    try destruct (s =? 0); try destruct (String.eqb t ""); reflexivity.
Qed.

Lemma web_addressCells_explicit (addressInfo : AddressRecord) :
  Web.addressCells addressInfo
  = [VStr (text_or_empty (mst addressInfo)); VStr (text_or_empty (address addressInfo))]
    ++ sheetCells (sheet addressInfo) ++ terminalCells (terminal addressInfo).
Proof.
  unfold Web.addressCells, sheetCells, terminalCells. rewrite !js_or_text.
  destruct (sheet addressInfo) as [s|], (terminal addressInfo) as [t|];
    cbn [prop_num prop_str truthy to_string];
    try destruct (s =? 0); try destruct (String.eqb t ""); reflexivity.
Qed.

(** C2: in both listings the address cursor starts at 0 and, after port [p]
    was processed, has moved by one exactly when [p mod 4 = 0] and a record
    follows the current one, so it never passes the last record; with 8
    ports, one cable of capacity 8 and two address records (each with an mst,
    an address, and a sheet within the exact range if any), the rows of
    ports 1-4 carry the mst, the address, the sheet label and the terminal
    of record 0 and those of ports 5-8 the ones of record 1. *)
Theorem C2_cursor_advances_every_fourth_port :
  cursor_rule Api.runPorts /\
  cursor_rule Web.runPorts /\
  (forall (main cableName mst0 address0 mst1 address1 : string)
          (sheet0 sheet1 : option Z) (terminal0 terminal1 : option string),
     safe_sheet sheet0 -> safe_sheet sheet1 ->
     let inputData :=
       mkConfig (Some 8) (Some main) (Some [mkCable cableName 8])
         (Some [mkAddress (Some mst0) (Some address0) sheet0 terminal0;
                mkAddress (Some mst1) (Some address1) sheet1 terminal1]) in
     let row0 (p : Z) (color : string) :=
       [VNum p; VStr main; VNum p; VStr cableName; VNum 1; VStr "BL"; VNum p;
        VStr color; VStr mst0; VStr address0]
       ++ sheetCells sheet0 ++ terminalCells terminal0 in
     let row1 (p : Z) (color : string) :=
       [VNum p; VStr main; VNum p; VStr cableName; VNum 1; VStr "BL"; VNum p;
        VStr color; VStr mst1; VStr address1]
       ++ sheetCells sheet1 ++ terminalCells terminal1 in
     let rows :=
       [row0 1 "bl"; row0 2 "or"; row0 3 "gr"; row0 4 "br";
        row1 5 "sl"; row1 6 "wh"; row1 7 "rd"; row1 8 "bk"] in
     Api.generateSpliceSheet inputData
     = Ok ([VStr "Port #"; VStr "Cable Name"; VStr "Port #"; VStr "Cable"; VStr "B#";
            VStr "(B)"; VStr "F#"; VStr "(F)"; VStr "MST"; VStr "Address"] :: rows) /\
     Web.generateSpliceSheet inputData
     = Ok ([VStr "Port #"; VStr "Main Cable"; VStr "Port #"; VStr "Cable"; VStr "B#";
            VStr "(B)"; VStr "F#"; VStr "(F)"; VStr "MST"; VStr "Address"] :: rows)).
Proof.
  split; [|split].
  - apply (cursor_rule_of_closed _ _ api_runPorts_closed).
  - apply (cursor_rule_of_closed _ _ web_runPorts_closed).
  - intros main cableName mst0 address0 mst1 address1 sheet0 sheet1
      terminal0 terminal1 _ _ inputData row0 row1 rows.
    set (r0 := mkAddress (Some mst0) (Some address0) sheet0 terminal0).
    set (r1 := mkAddress (Some mst1) (Some address1) sheet1 terminal1).
    rewrite api_table_closed, web_table_closed. split.
    + change (expectedTable Api.generateHeaders Api.cableCells Api.addressCells inputData)
        with (Api.generateHeaders [mkCable cableName 8]
              :: map (fun p => [VNum p; VStr main] ++ Api.cableCells p (mkCable cableName 8)
                               ++ Api.addressCells r0) [1; 2; 3; 4]
              ++ map (fun p => [VNum p; VStr main] ++ Api.cableCells p (mkCable cableName 8)
                               ++ Api.addressCells r1) [5; 6; 7; 8]).
      rewrite !api_addressCells_explicit. reflexivity.
    + change (expectedTable Web.generateHeaders Web.cableCells Web.addressCells inputData)
        with (Web.generateHeaders [mkCable cableName 8]
              :: map (fun p => [VNum p; VStr main] ++ Web.cableCells p (mkCable cableName 8)
                               ++ Web.addressCells r0) [1; 2; 3; 4]
              ++ map (fun p => [VNum p; VStr main] ++ Web.cableCells p (mkCable cableName 8)
                               ++ Web.addressCells r1) [5; 6; 7; 8]).
      rewrite !web_addressCells_explicit. reflexivity.
Qed.

Lemma C2_cursor_advances_every_fourth_port_witness :
  safe_sheet (Some 14) /\ safe_sheet None /\
  Web.generateSpliceSheet
    (mkConfig (Some 8) (Some "M") (Some [mkCable "A" 8])
       (Some [mkAddress (Some "MST_A") (Some "1 ELM ST") (Some 14) (Some "T1");
              mkAddress (Some "MST_B") (Some "2 OAK ST") None None]))
  = Ok [ [VStr "Port #"; VStr "Main Cable"; VStr "Port #"; VStr "Cable"; VStr "B#";
          VStr "(B)"; VStr "F#"; VStr "(F)"; VStr "MST"; VStr "Address"];
         [VNum 1; VStr "M"; VNum 1; VStr "A"; VNum 1; VStr "BL"; VNum 1; VStr "bl";
          VStr "MST_A"; VStr "1 ELM ST"; VStr "SHEET # 14"; VStr "T1"];
         [VNum 2; VStr "M"; VNum 2; VStr "A"; VNum 1; VStr "BL"; VNum 2; VStr "or";
          VStr "MST_A"; VStr "1 ELM ST"; VStr "SHEET # 14"; VStr "T1"];
         [VNum 3; VStr "M"; VNum 3; VStr "A"; VNum 1; VStr "BL"; VNum 3; VStr "gr";
          VStr "MST_A"; VStr "1 ELM ST"; VStr "SHEET # 14"; VStr "T1"];
         [VNum 4; VStr "M"; VNum 4; VStr "A"; VNum 1; VStr "BL"; VNum 4; VStr "br";
          VStr "MST_A"; VStr "1 ELM ST"; VStr "SHEET # 14"; VStr "T1"];
         [VNum 5; VStr "M"; VNum 5; VStr "A"; VNum 1; VStr "BL"; VNum 5; VStr "sl";
          VStr "MST_B"; VStr "2 OAK ST"];
         [VNum 6; VStr "M"; VNum 6; VStr "A"; VNum 1; VStr "BL"; VNum 6; VStr "wh";
          VStr "MST_B"; VStr "2 OAK ST"];
         [VNum 7; VStr "M"; VNum 7; VStr "A"; VNum 1; VStr "BL"; VNum 7; VStr "rd";
          VStr "MST_B"; VStr "2 OAK ST"];
         [VNum 8; VStr "M"; VNum 8; VStr "A"; VNum 1; VStr "BL"; VNum 8; VStr "bk";
          VStr "MST_B"; VStr "2 OAK ST"] ].
Proof.
  assert (H0 : safe_sheet (Some 14)) by (cbn; unfold MAX_SAFE_INTEGER; lia).
  assert (H1 : safe_sheet None) by exact I.
  split; [exact H0 | split; [exact H1|]].
  exact (proj2 (proj2 (proj2 C2_cursor_advances_every_fourth_port)
                  "M" "A" "MST_A" "1 ELM ST" "MST_B" "2 OAK ST"
                  (Some 14) None (Some "T1") None H0 H1)).
Defined.

(** C7: with [ports = 0] the builder of either listing succeeds and returns
    the header row alone, whatever the cables and the addresses are. *)
Theorem C7_zero_ports_header_only (inputData : SpliceConfig) :
  ports inputData = Some 0 ->
  Api.generateSpliceSheet inputData = Ok [Api.generateHeaders (cables_of inputData)] /\
  Web.generateSpliceSheet inputData = Ok [Web.generateHeaders (cables_of inputData)].
Proof.
  intros H0.
  unfold Api.generateSpliceSheet, Web.generateSpliceSheet, ports_of.
  rewrite H0. split; reflexivity.
Qed.

Lemma C7_zero_ports_header_only_witness :
  ports cfg_zero_ports = Some 0 /\
  Api.generateSpliceSheet cfg_zero_ports
  = Ok [[VStr "Port #"; VStr "Cable Name"; VStr "Port #"; VStr "Cable"; VStr "B#";
         VStr "(B)"; VStr "F#"; VStr "(F)"; VStr "MST"; VStr "Address"]].
Proof.
  split; [reflexivity | exact (proj1 (C7_zero_ports_header_only cfg_zero_ports eq_refl))].
Defined.

Lemma expectedTable_rows_groups
    (generateHeaders : list CableBundle -> list value)
    (cableCells : Z -> CableBundle -> list value)
    (addressCells : AddressRecord -> list value) (inputData : SpliceConfig) :
  (forall port cable, six_cells_named cable (cableCells port cable)) ->
  (forall addressInfo, (2 <= List.length (addressCells addressInfo) <= 4)%nat) ->
  exists rows,
    expectedTable generateHeaders cableCells addressCells inputData
    = generateHeaders (cables_of inputData) :: rows /\
    List.length rows = Z.to_nat (ports_of inputData) /\
    Forall (has_cable_groups (cables_of inputData) six_cells_named) rows.
Proof.
  intros Hc Ha. eexists. split; [reflexivity|]. split.
  - now rewrite length_map, ports_upto_length.
  - apply Forall_forall. intros row Hrow.
    apply in_map_iff in Hrow. destruct Hrow as [port [<- _]].
    now apply dataRow_groups.
Qed.

(** C5: in both listings the table is a header followed by one row per
    port; the header is two cells, six labels per cable and two closing
    cells, hence of length [2 + 6 * cables.length + 2]; every data row is
    two cells, then for each cable, in order, a group of six cells whose
    second cell is that cable's name, whether or not the port is within the
    cable's capacity, then two to four closing cells. *)
Theorem C5_one_group_per_cable (inputData : SpliceConfig) :
  let cables := cables_of inputData in
  (exists header rows,
     Api.generateSpliceSheet inputData = Ok (header :: rows) /\
     header = Api.generateHeaders cables /\
     List.length rows = Z.to_nat (ports_of inputData) /\
     List.length header = (2 + 6 * List.length cables + 2)%nat /\
     has_cable_groups cables (fun _ group => group = groupLabels) header /\
     Forall (has_cable_groups cables six_cells_named) rows) /\
  (exists header rows,
     Web.generateSpliceSheet inputData = Ok (header :: rows) /\
     header = Web.generateHeaders cables /\
     List.length rows = Z.to_nat (ports_of inputData) /\
     List.length header = (2 + 6 * List.length cables + 2)%nat /\
     has_cable_groups cables (fun _ group => group = groupLabels) header /\
     Forall (has_cable_groups cables six_cells_named) rows).
Proof.
  intros cables. split.
  - destruct (expectedTable_rows_groups Api.generateHeaders Api.cableCells
                Api.addressCells inputData api_cableCells_named api_addressCells_length)
      as [rows [Ht [Hl Hg]]].
    exists (Api.generateHeaders cables), rows.
    rewrite api_table_closed, Ht. fold cables.
    rewrite api_headers_closed.
    repeat split; auto using header_length, header_groups.
  - destruct (expectedTable_rows_groups Web.generateHeaders Web.cableCells
                Web.addressCells inputData web_cableCells_named web_addressCells_length)
      as [rows [Ht [Hl Hg]]].
    exists (Web.generateHeaders cables), rows.
    rewrite web_table_closed, Ht. fold cables.
    rewrite web_headers_closed.
    repeat split; auto using header_length, header_groups.
Qed.

Lemma expectedTable_no_addresses
    (generateHeaders : list CableBundle -> list value)
    (cableCells : Z -> CableBundle -> list value)
    (addressCells : AddressRecord -> list value) (inputData : SpliceConfig) :
  addresses_of inputData = [] ->
  expectedTable generateHeaders cableCells addressCells inputData
  = generateHeaders (cables_of inputData)
    :: map (fun port => [VNum port; VStr (mainCableName_of inputData)]
                        ++ flat_map (cableCells port) (cables_of inputData)
                        ++ [VStr ""; VStr "Unused"])
           (ports_upto (Z.to_nat (ports_of inputData))).
Proof.
  intros He. unfold expectedTable, dataRow, trailingCells. rewrite He.
  reflexivity.
Qed.

Lemma no_address_row_shape (cableCells : Z -> CableBundle -> list value)
    (main : string) (cables : list CableBundle) (port : Z) :
  (forall port cable, six_cells_named cable (cableCells port cable)) ->
  let row := [VNum port; VStr main] ++ flat_map (cableCells port) cables
             ++ [VStr ""; VStr "Unused"] in
  trailing (List.length cables) row = [VStr ""; VStr "Unused"] /\
  List.length row = (2 + 6 * List.length cables + 2)%nat.
Proof.
  intros Hc row. unfold row, trailing.
  assert (Hl : List.length (flat_map (cableCells port) cables)
               = (6 * List.length cables)%nat)
    by (apply flat_map_length_const; intros cable; apply Hc).
  split.
  - rewrite app_assoc. apply skipn_past_prefix.
    rewrite length_app, Hl. reflexivity.
  - rewrite !length_app, Hl. reflexivity.
Qed.

(** C10: when the argument carries an empty [addresses] list, the builder
    of either listing synthesises nothing: every data row is the two leading
    cells, the cable groups, and then exactly the empty string and "Unused",
    with no sheet or terminal cell, so that its length is
    [2 + 6 * cables.length + 2]. *)
Theorem C10_empty_addresses_all_unused (inputData : SpliceConfig) :
  addresses inputData = Some [] ->
  let cables := cables_of inputData in
  let main := mainCableName_of inputData in
  let is_unused_row (row : list value) :=
    trailing (List.length cables) row = [VStr ""; VStr "Unused"] /\
    List.length row = (2 + 6 * List.length cables + 2)%nat in
  (exists rows,
     Api.generateSpliceSheet inputData = Ok (Api.generateHeaders cables :: rows) /\
     rows = map (fun port => [VNum port; VStr main]
                             ++ flat_map (Api.cableCells port) cables
                             ++ [VStr ""; VStr "Unused"])
                (ports_upto (Z.to_nat (ports_of inputData))) /\
     Forall is_unused_row rows) /\
  (exists rows,
     Web.generateSpliceSheet inputData = Ok (Web.generateHeaders cables :: rows) /\
     rows = map (fun port => [VNum port; VStr main]
                             ++ flat_map (Web.cableCells port) cables
                             ++ [VStr ""; VStr "Unused"])
                (ports_upto (Z.to_nat (ports_of inputData))) /\
     Forall is_unused_row rows).
Proof.
  intros He cables main is_unused_row.
  assert (He' : addresses_of inputData = []) by (unfold addresses_of; now rewrite He).
  split; eexists; (split; [|split; [reflexivity|]]).
  - rewrite api_table_closed.
    now rewrite (expectedTable_no_addresses _ _ _ _ He').
  - apply Forall_forall. intros row Hrow.
    apply in_map_iff in Hrow. destruct Hrow as [port [<- _]].
    apply (no_address_row_shape Api.cableCells main cables port api_cableCells_named).
  - rewrite web_table_closed.
    now rewrite (expectedTable_no_addresses _ _ _ _ He').
  - apply Forall_forall. intros row Hrow.
    apply in_map_iff in Hrow. destruct Hrow as [port [<- _]].
    apply (no_address_row_shape Web.cableCells main cables port web_cableCells_named).
Qed.

Lemma C10_empty_addresses_all_unused_witness :
  addresses cfg_short_cable = Some [] /\
  exists rows,
    Web.generateSpliceSheet cfg_short_cable = Ok (Web.generateHeaders [mkCable "A" 1] :: rows) /\
    rows = [ [VNum 1; VStr "M"; VNum 1; VStr "A"; VNum 1; VStr "BL"; VNum 1; VStr "bl";
              VStr ""; VStr "Unused"];
             [VNum 2; VStr "M"; VStr ""; VStr "A"; VStr ""; VStr ""; VStr ""; VStr "";
              VStr ""; VStr "Unused"] ].
Proof.
  split; [reflexivity|].
  destruct (proj2 (C10_empty_addresses_all_unused cfg_short_cable eq_refl)) as [rows [Ht [Hr _]]].
  exists rows. split; [exact Ht | exact Hr].
Defined.

Lemma expectedTable_row
    (generateHeaders : list CableBundle -> list value)
    (cableCells : Z -> CableBundle -> list value)
    (addressCells : AddressRecord -> list value) (inputData : SpliceConfig) (p : Z) :
  1 <= p <= ports_of inputData ->
  row_of_port (expectedTable generateHeaders cableCells addressCells inputData) p
  = Some (dataRow cableCells addressCells inputData
            (cursor_formula (Z.of_nat (List.length (addresses_of inputData))) (p - 1)) p).
Proof.
  intros Hp. unfold expectedTable.
  apply (row_of_port_table _
           (fun port => dataRow cableCells addressCells inputData
                          (cursor_formula _ (port - 1)) port)).
  lia.
Qed.

Lemma cursor_formula_nonempty (len done : Z) :
  0 < len -> cursor_formula len done = Z.min (done / 4) (len - 1).
Proof.
  intros Hl. unfold cursor_formula.
  now replace (len =? 0) with false by (symmetry; apply Z.eqb_neq; lia).
Qed.

Lemma nonempty_length {A : Type} (l : list A) :
  l <> [] -> 0 < Z.of_nat (List.length l).
Proof. destruct l; [congruence | cbn; lia]. Qed.

(** C9: in both listings, when there is at least one address record, the
    row of every port [p] in [1 .. ports] ends with the cells of the record
    at index [min(floor((p-1)/4), addresses.length - 1)], which exists: its
    mst, its address (the first listing pushes the two properties as they
    are, the second the empty string for one that is absent), then, for a
    sheet within the exact range, the sheet label if the sheet is present
    and not 0, and the terminal if it is present and not empty.  That index
    is the value of the cursor when the loop reaches port [p], and it passes
    the test [addressIndex < addresses.length], so the branch that pushes
    the empty string and "Unused" is not taken. *)
Theorem C9_record_shown_at_port (inputData : SpliceConfig) (p : Z) :
  addresses_of inputData <> [] ->
  1 <= p <= ports_of inputData ->
  let addresses := addresses_of inputData in
  let cables := cables_of inputData in
  let main := mainCableName_of inputData in
  let len := Z.of_nat (List.length addresses) in
  let k := Z.min ((p - 1) / 4) (len - 1) in
  exists addressInfo,
    js_get addresses k = Some addressInfo /\
    (exists table st tail,
       Api.generateSpliceSheet inputData = Ok table /\
       row_of_port table p
       = Some ([VNum p; VStr main] ++ flat_map (Api.cableCells p) cables ++ tail) /\
       nth_error tail 0 = Some (prop_str (mst addressInfo)) /\
       nth_error tail 1 = Some (prop_str (address addressInfo)) /\
       (safe_sheet (sheet addressInfo) ->
        tail = [prop_str (mst addressInfo); prop_str (address addressInfo)]
               ++ sheetCells (sheet addressInfo)
               ++ terminalCells (terminal addressInfo)) /\
       Api.runPorts inputData (Z.to_nat (p - 1)) = Ok st /\
       addressIndex st = k /\
       (addressIndex st <? len) = true) /\
    (exists table st tail,
       Web.generateSpliceSheet inputData = Ok table /\
       row_of_port table p
       = Some ([VNum p; VStr main] ++ flat_map (Web.cableCells p) cables ++ tail) /\
       nth_error tail 0 = Some (VStr (text_or_empty (mst addressInfo))) /\
       nth_error tail 1 = Some (VStr (text_or_empty (address addressInfo))) /\
       (safe_sheet (sheet addressInfo) ->
        tail = [VStr (text_or_empty (mst addressInfo));
                VStr (text_or_empty (address addressInfo))]
               ++ sheetCells (sheet addressInfo)
               ++ terminalCells (terminal addressInfo)) /\
       Web.runPorts inputData (Z.to_nat (p - 1)) = Ok st /\
       addressIndex st = k /\
       (addressIndex st <? len) = true).
Proof.
  intros Hne Hp addresses cables main len k.
  assert (Hlen : 0 < len) by (apply nonempty_length; exact Hne).
  assert (Hk : cursor_formula len (p - 1) = k) by (now apply cursor_formula_nonempty).
  assert (Hr : 0 <= k < len)
    by (rewrite <- Hk; apply cursor_formula_in_range; lia).
  destruct (js_get_in_range addresses k Hr) as [addressInfo Hget].
  exists addressInfo. split; [exact Hget|].
  split.
  - exists (expectedTable Api.generateHeaders Api.cableCells Api.addressCells inputData).
    eexists. exists (Api.addressCells addressInfo).
    split; [apply api_table_closed|].
    split; [rewrite expectedTable_row by lia; fold addresses len; rewrite Hk;
            unfold dataRow, trailingCells; fold addresses; rewrite Hget; reflexivity|].
    rewrite api_addressCells_explicit.
    split; [reflexivity|]. split; [reflexivity|]. split; [intros _; reflexivity|].
    split; [apply api_runPorts_closed|].
    cbn [addressIndex]. fold addresses len.
    replace (Z.of_nat (Z.to_nat (p - 1))) with (p - 1) by lia.
    split; [exact Hk | rewrite Hk; apply Z.ltb_lt; lia].
  - exists (expectedTable Web.generateHeaders Web.cableCells Web.addressCells inputData).
    eexists. exists (Web.addressCells addressInfo).
    split; [apply web_table_closed|].
    split; [rewrite expectedTable_row by lia; fold addresses len; rewrite Hk;
            unfold dataRow, trailingCells; fold addresses; rewrite Hget; reflexivity|].
    rewrite web_addressCells_explicit.
    split; [reflexivity|]. split; [reflexivity|]. split; [intros _; reflexivity|].
    split; [apply web_runPorts_closed|].
    cbn [addressIndex]. fold addresses len.
    replace (Z.of_nat (Z.to_nat (p - 1))) with (p - 1) by lia.
    split; [exact Hk | rewrite Hk; apply Z.ltb_lt; lia].
Qed.

Lemma C9_record_shown_at_port_witness :
  addresses_of cfg_two_records <> [] /\
  1 <= 11 <= ports_of cfg_two_records /\
  exists table tail,
    Web.generateSpliceSheet cfg_two_records = Ok table /\
    row_of_port table 11 = Some ([VNum 11; VStr "M"] ++ tail) /\
    tail = [VStr "MST_B"; VStr "2 OAK ST"].
Proof.
  assert (Hne : addresses_of cfg_two_records <> []) by discriminate.
  assert (Hp : 1 <= 11 <= ports_of cfg_two_records) by (cbn; lia).
  split; [exact Hne | split; [exact Hp|]].
  destruct (C9_record_shown_at_port cfg_two_records 11 Hne Hp)
    as [addressInfo [Hget [_ [table [st [tail [Ht [Hrow [_ [_ [Htail _]]]]]]]]]]].
  injection Hget as <-.
  exists table, tail. split; [exact Ht|]. split; [exact Hrow|].
  exact (Htail I).
Defined.

(** ** Cells of a cable the port does not reach *)

Lemma unused_group_cells (port : Z) (cable : CableBundle) :
  fiberCount cable < port ->
  Api.cableCells port cable
  = [VNum port; VStr (name cable); VNull; VNull; VNull; VNull] /\
  Web.cableCells port cable
  = [VStr ""; VStr (name cable); VStr ""; VStr ""; VStr ""; VStr ""].
Proof.
  intros H. unfold Api.cableCells, Web.cableCells.
  replace (port <=? fiberCount cable) with false
    by (symmetry; apply Z.leb_gt; exact H).
  split; reflexivity.
Qed.

(** In the second listing the port cell and the four position cells of such
    a group are blank, for every port and cable; in the first listing the
    port cell holds the port number. *)
Lemma web_unused_group_blank (port : Z) (cable : CableBundle) :
  fiberCount cable < port ->
  let group := Web.cableCells port cable in
  map isBlank (firstn 1 group ++ skipn 2 group) = [true; true; true; true; true].
Proof.
  intros H group. unfold group.
  rewrite (proj2 (unused_group_cells port cable H)). reflexivity.
Qed.

Lemma api_unused_group_port_cell (port : Z) (cable : CableBundle) :
  fiberCount cable < port ->
  nth_error (Api.cableCells port cable) 0 = Some (VNum port) /\
  isBlank (VNum port) = false.
Proof.
  intros H. rewrite (proj1 (unused_group_cells port cable H)). split; reflexivity.
Qed.

(** C3: the first listing, at port 2 of a cable with a single fiber, pushes
    the port number 2 into the per-cable port cell of the unused group (only
    the four position cells are null), where the second listing pushes the
    empty string. *)
Theorem C3_api_unused_group_shows_port :
  Api.generateSpliceSheet cfg_short_cable
  = Ok [ [VStr "Port #"; VStr "Cable Name"; VStr "Port #"; VStr "Cable"; VStr "B#";
          VStr "(B)"; VStr "F#"; VStr "(F)"; VStr "MST"; VStr "Address"];
         [VNum 1; VStr "M"; VNum 1; VStr "A"; VNum 1; VStr "BL"; VNum 1; VStr "bl";
          VStr ""; VStr "Unused"];
         [VNum 2; VStr "M"; VNum 2; VStr "A"; VNull; VNull; VNull; VNull;
          VStr ""; VStr "Unused"] ] /\
  (2 <=? fiberCount (mkCable "A" 1)) = false /\
  map isBlank (Api.cableCells 2 (mkCable "A" 1)) = [false; false; true; true; true; true] /\
  map isBlank (Web.cableCells 2 (mkCable "A" 1)) = [true; false; true; true; true; true].
Proof. repeat split. Qed.

(** ** The address cells *)

Lemma api_addressCells_head (addressInfo : AddressRecord) :
  nth_error (Api.addressCells addressInfo) 0 = Some (prop_str (mst addressInfo)) /\
  nth_error (Api.addressCells addressInfo) 1 = Some (prop_str (address addressInfo)).
Proof.
  unfold Api.addressCells.
  destruct (truthy (prop_num (sheet addressInfo)));
    destruct (truthy (prop_str (terminal addressInfo))); split; reflexivity.
Qed.

Lemma web_addressCells_head (addressInfo : AddressRecord) :
  nth_error (Web.addressCells addressInfo) 0
  = Some (js_or (prop_str (mst addressInfo)) (VStr "")) /\
  nth_error (Web.addressCells addressInfo) 1
  = Some (js_or (prop_str (address addressInfo)) (VStr "")).
Proof.
  unfold Web.addressCells.
  destruct (truthy (prop_num (sheet addressInfo)));
    destruct (truthy (prop_str (terminal addressInfo))); split; reflexivity.
Qed.

(** In the closed form of a table, the row of a port whose cursor points at
    a record ends with the cells of that record. *)
Lemma expectedTable_trailing
    (generateHeaders : list CableBundle -> list value)
    (cableCells : Z -> CableBundle -> list value)
    (addressCells : AddressRecord -> list value)
    (inputData : SpliceConfig) (p : Z) (addressInfo : AddressRecord) :
  (forall port cable, six_cells_named cable (cableCells port cable)) ->
  1 <= p <= ports_of inputData ->
  js_get (addresses_of inputData)
    (cursor_formula (Z.of_nat (List.length (addresses_of inputData))) (p - 1))
  = Some addressInfo ->
  exists row,
    row_of_port (expectedTable generateHeaders cableCells addressCells inputData) p
    = Some row /\
    trailing (List.length (cables_of inputData)) row = addressCells addressInfo.
Proof.
  intros Hc Hp Hget. eexists. split; [apply expectedTable_row; exact Hp|].
  rewrite trailing_dataRow by exact Hc.
  unfold trailingCells. now rewrite Hget.
Qed.

(** A record with an empty address in a one-port table: neither listing
    writes "Unused" into the address cell. *)
Lemma C4_empty_address_is_not_unused :
  Api.generateSpliceSheet cfg_blank_address
  = Ok [ [VStr "Port #"; VStr "Cable Name"; VStr "MST"; VStr "Address"];
         [VNum 1; VStr "M"; VStr "MST1"; VStr ""] ] /\
  Api.generateSpliceSheet cfg_absent_address
  = Ok [ [VStr "Port #"; VStr "Cable Name"; VStr "MST"; VStr "Address"];
         [VNum 1; VStr "M"; VStr "MST1"; VUndef] ] /\
  Web.generateSpliceSheet cfg_blank_address
  = Ok [ [VStr "Port #"; VStr "Main Cable"; VStr "MST"; VStr "Address"];
         [VNum 1; VStr "M"; VStr "MST1"; VStr ""] ] /\
  Web.generateSpliceSheet cfg_absent_address
  = Ok [ [VStr "Port #"; VStr "Main Cable"; VStr "MST"; VStr "Address"];
         [VNum 1; VStr "M"; VStr "MST1"; VStr ""] ] /\
  VStr "" <> VStr "Unused" /\
  VUndef <> VStr "Unused".
Proof. repeat split; discriminate. Qed.

(** C4 (amended): when the cursor of a port points at a record whose address
    is empty (absent or empty, in the second listing), the address cell of
    that port's row is the empty string; the cell before it is the record's
    mst (with the empty string standing in for an absent mst, in the second
    listing). *)
Theorem C4_empty_address_cell (inputData : SpliceConfig) (p idx : Z)
    (addressInfo : AddressRecord) :
  1 <= p <= ports_of inputData ->
  cursor_at Api.runPorts inputData p idx ->
  cursor_at Web.runPorts inputData p idx ->
  js_get (addresses_of inputData) idx = Some addressInfo ->
  address addressInfo = None \/ address addressInfo = Some "" ->
  let n := List.length (cables_of inputData) in
  (exists table row,
     Api.generateSpliceSheet inputData = Ok table /\
     row_of_port table p = Some row /\
     (forall m, mst addressInfo = Some m ->
                nth_error (trailing n row) 0 = Some (VStr m)) /\
     (address addressInfo = Some "" ->
      nth_error (trailing n row) 1 = Some (VStr ""))) /\
  (exists table row,
     Web.generateSpliceSheet inputData = Ok table /\
     row_of_port table p = Some row /\
     nth_error (trailing n row) 0 = Some (VStr (text_or_empty (mst addressInfo))) /\
     nth_error (trailing n row) 1 = Some (VStr "")).
Proof.
  intros Hp [stA [HrunA HidxA]] [stW [HrunW HidxW]] Hget Haddr n.
  rewrite api_runPorts_closed in HrunA. injection HrunA as <-.
  cbn [addressIndex] in HidxA.
  replace (Z.of_nat (Z.to_nat (p - 1))) with (p - 1) in HidxA by lia.
  rewrite <- HidxA in Hget.
  split.
  - destruct (expectedTable_trailing Api.generateHeaders Api.cableCells Api.addressCells
                inputData p addressInfo api_cableCells_named Hp Hget) as [row [Hrow Ht]].
    exists (expectedTable Api.generateHeaders Api.cableCells Api.addressCells inputData), row.
    split; [apply api_table_closed|]. split; [exact Hrow|].
    unfold n. rewrite Ht, api_addressCells_explicit.
    split.
    + intros m Hm. rewrite Hm. reflexivity.
    + intros Ha. rewrite Ha. reflexivity.
  - destruct (expectedTable_trailing Web.generateHeaders Web.cableCells Web.addressCells
                inputData p addressInfo web_cableCells_named Hp Hget) as [row [Hrow Ht]].
    exists (expectedTable Web.generateHeaders Web.cableCells Web.addressCells inputData), row.
    split; [apply web_table_closed|]. split; [exact Hrow|].
    unfold n. rewrite Ht, web_addressCells_explicit.
    split; [reflexivity|].
    destruct Haddr as [-> | ->]; reflexivity.
Qed.

Lemma C4_empty_address_cell_witness :
  1 <= 1 <= ports_of cfg_sheet_only /\
  cursor_at Api.runPorts cfg_sheet_only 1 0 /\
  cursor_at Web.runPorts cfg_sheet_only 1 0 /\
  js_get (addresses_of cfg_sheet_only) 0 = Some rec_sheet_only /\
  (address rec_sheet_only = None \/ address rec_sheet_only = Some "") /\
  exists table row,
    Web.generateSpliceSheet cfg_sheet_only = Ok table /\
    row_of_port table 1 = Some row /\
    nth_error (trailing 1 row) 0 = Some (VStr "MST1") /\
    nth_error (trailing 1 row) 1 = Some (VStr "").
Proof.
  assert (Hp : 1 <= 1 <= ports_of cfg_sheet_only) by (cbn; lia).
  assert (HA : cursor_at Api.runPorts cfg_sheet_only 1 0)
    by (eexists; split; reflexivity).
  assert (HW : cursor_at Web.runPorts cfg_sheet_only 1 0)
    by (eexists; split; reflexivity).
  assert (Hget : js_get (addresses_of cfg_sheet_only) 0 = Some rec_sheet_only)
    by reflexivity.
  assert (Haddr : address rec_sheet_only = None \/ address rec_sheet_only = Some "")
    by (left; reflexivity).
  repeat (split; [assumption|]).
  exact (proj2 (C4_empty_address_cell cfg_sheet_only 1 0 rec_sheet_only
                  Hp HA HW Hget Haddr)).
Defined.

(** * Further properties of the resolver *)

Lemma NoDup_BUFFER_COLORS : NoDup BUFFER_COLORS.
Proof.
  replace BUFFER_COLORS with (nodup string_dec BUFFER_COLORS) by reflexivity.
  apply NoDup_nodup.
Qed.

Lemma NoDup_FIBER_COLORS : NoDup FIBER_COLORS.
Proof.
  replace FIBER_COLORS with (nodup string_dec FIBER_COLORS) by reflexivity.
  apply NoDup_nodup.
Qed.

(** Two lookups within bounds of a table without repetition agree only at
    the same index. *)
Lemma js_index_inj (colors : list string) (a b : Z) :
  NoDup colors ->
  0 <= a < Z.of_nat (List.length colors) ->
  0 <= b < Z.of_nat (List.length colors) ->
  js_index colors a = js_index colors b -> a = b.
Proof.
  intros Hnd Ha Hb E.
  destruct (js_index_in_bounds colors a Ha) as [sa [Na Ja]].
  destruct (js_index_in_bounds colors b Hb) as [sb [Nb Jb]].
  rewrite Ja, Jb in E. injection E as <-.
  assert (Z.to_nat a = Z.to_nat b).
  { apply (proj1 (NoDup_nth_error colors) Hnd); [|congruence].
    apply nth_error_Some. congruence. }
  lia.
Qed.

(** X1: within one 144-fiber cable (12 tubes of 12 fibers) the pair of
    buffer colour and fiber colour identifies the fiber: two indices in
    [1 .. 144] that resolve to the same two colours are equal. *)
Theorem color_code_identifies_fiber (i j : Z) :
  1 <= i <= 144 -> 1 <= j <= 144 ->
  bufferColor (calculateFiberPosition i None)
  = bufferColor (calculateFiberPosition j None) ->
  fiberColor (calculateFiberPosition i None)
  = fiberColor (calculateFiberPosition j None) ->
  i = j.
Proof.
  intros Hi Hj.
  change (calculateFiberPosition i None) with (calculateFiberPosition i (Some 12)).
  change (calculateFiberPosition j None) with (calculateFiberPosition j (Some 12)).
  rewrite !resolve_fields by lia. cbn [bufferColor fiberColor].
  intros Hb Hf.
  apply js_index_inj in Hb;
    [| exact NoDup_BUFFER_COLORS
     | apply Z.mod_pos_bound; reflexivity | apply Z.mod_pos_bound; reflexivity].
  apply js_index_inj in Hf;
    [| exact NoDup_FIBER_COLORS
     | apply Z.mod_pos_bound; reflexivity | apply Z.mod_pos_bound; reflexivity].
  Z.to_euclidean_division_equations. lia.
Qed.

Lemma color_code_identifies_fiber_witness :
  1 <= 30 <= 144 /\ 30 = 30.
Proof.
  assert (H : 1 <= 30 <= 144) by lia.
  split; [exact H|].
  exact (color_code_identifies_fiber 30 30 H H eq_refl eq_refl).
Defined.

(** X2: an index that is not positive (say a 0-based one) is not rejected:
    for every tube size from 1 to [MAX_SAFE_INTEGER] and every index in
    [1 - 11 * fibersPerTube .. 0] above [- MAX_SAFE_INTEGER], where the
    code's arithmetic is exact, the resolver returns a tube number <= 0, a
    fiber number <= 1, and [undefined] as the buffer colour. *)
Theorem resolver_nonpositive_index (index fibersPerTube : Z) :
  1 <= fibersPerTube <= MAX_SAFE_INTEGER ->
  - 11 * fibersPerTube < index <= 0 ->
  - MAX_SAFE_INTEGER < index ->
  exists tube fiber,
    bufferTube (calculateFiberPosition index (Some fibersPerTube)) = VNum tube /\
    fiberNumber (calculateFiberPosition index (Some fibersPerTube)) = VNum fiber /\
    tube <= 0 /\ fiber <= 1 /\
    bufferColor (calculateFiberPosition index (Some fibersPerTube)) = VUndef.
Proof.
  intros [Hf _] Hi _.
  unfold calculateFiberPosition, floor_div, js_rem.
  replace (fibersPerTube =? 0) with false by (symmetry; apply Z.eqb_neq; lia).
  cbn [plus_one color_of bufferTube fiberNumber bufferColor].
  do 2 eexists. split; [reflexivity|]. split; [reflexivity|].
  assert (Hq : -11 <= (index - 1) / fibersPerTube < 0).
  { split.
    - apply Z.div_le_lower_bound; lia.
    - apply Z.div_lt_upper_bound; lia. }
  assert (Hr : Z.rem (index - 1) fibersPerTube <= 0)
    by (Z.to_euclidean_division_equations; lia).
  split; [lia|]. split; [lia|].
  change (Z.of_nat (List.length BUFFER_COLORS)) with 12.
  replace ((index - 1) / fibersPerTube + 1 - 1) with ((index - 1) / fibersPerTube) by lia.
  set (q := (index - 1) / fibersPerTube) in *.
  unfold js_index.
  replace (Z.rem q 12 <? 0) with true; [reflexivity|].
  symmetry. apply Z.ltb_lt.
  clearbody q. Z.to_euclidean_division_equations. lia.
Qed.

Lemma resolver_nonpositive_index_witness :
  1 <= 12 <= MAX_SAFE_INTEGER /\ - 11 * 12 < 0 <= 0 /\ - MAX_SAFE_INTEGER < 0 /\
  exists tube fiber,
    bufferTube (calculateFiberPosition 0 (Some 12)) = VNum tube /\
    fiberNumber (calculateFiberPosition 0 (Some 12)) = VNum fiber /\
    tube <= 0 /\ fiber <= 1 /\
    bufferColor (calculateFiberPosition 0 (Some 12)) = VUndef.
Proof.
  assert (Hf : 1 <= 12 <= MAX_SAFE_INTEGER) by (unfold MAX_SAFE_INTEGER; lia).
  assert (Hi : - 11 * 12 < 0 <= 0) by lia.
  assert (Hs : - MAX_SAFE_INTEGER < 0) by (unfold MAX_SAFE_INTEGER; lia).
  split; [exact Hf | split; [exact Hi | split; [exact Hs|]]].
  exact (resolver_nonpositive_index 0 12 Hf Hi Hs).
Defined.

(** * Further properties of the builder *)

Lemma group_in_flat_map {A : Type} (f : A -> list value) (l : list A)
    (tail : list value) (j : nat) (x : A) :
  (forall y, List.length (f y) = 6%nat) ->
  nth_error l j = Some x ->
  firstn 6 (skipn (6 * j) (flat_map f l ++ tail)) = f x.
Proof.
  intros H6. revert j. induction l as [|y l IH]; intros j Hj.
  - destruct j; discriminate.
  - destruct j as [|j]; cbn [nth_error] in Hj.
    + injection Hj as ->. change (6 * 0)%nat with 0%nat. cbn [flat_map skipn].
      rewrite <- app_assoc, firstn_app, H6, Nat.sub_diag, firstn_O, app_nil_r.
      apply firstn_all2. rewrite H6. lia.
    + cbn [flat_map]. rewrite <- app_assoc.
      replace (6 * S j)%nat with (List.length (f y) + 6 * j)%nat by (rewrite H6; lia).
      rewrite skipn_app, skipn_all2 by lia.
      replace (List.length (f y) + 6 * j - List.length (f y))%nat with (6 * j)%nat by lia.
      cbn [app]. apply IH. exact Hj.
Qed.

Lemma group_at_dataRow (cableCells : Z -> CableBundle -> list value)
    (addressCells : AddressRecord -> list value) (inputData : SpliceConfig)
    (idx port : Z) (j : nat) (cable : CableBundle) :
  (forall port cable, six_cells_named cable (cableCells port cable)) ->
  nth_error (cables_of inputData) j = Some cable ->
  group_at j (dataRow cableCells addressCells inputData idx port)
  = cableCells port cable.
Proof.
  intros Hc Hj. unfold group_at, dataRow.
  change (skipn (2 + 6 * j) ([VNum port; VStr (mainCableName_of inputData)] ++ ?l))
    with (skipn (6 * j) l).
  apply group_in_flat_map; [|exact Hj]. intros y. apply Hc.
Qed.

Lemma js_get_Some_nonempty {A : Type} (arr : list A) (i : Z) (x : A) :
  js_get arr i = Some x -> 0 <= i < Z.of_nat (List.length arr).
Proof.
  unfold js_get. destruct (i <? 0) eqn:E; [discriminate|].
  apply Z.ltb_ge in E. intros H.
  assert (Z.to_nat i < List.length arr)%nat by (apply nth_error_Some; congruence).
  lia.
Qed.

Lemma js_get_In {A : Type} (arr : list A) (i : Z) (x : A) :
  js_get arr i = Some x -> In x arr.
Proof.
  unfold js_get. destruct (i <? 0); [discriminate|]. apply nth_error_In.
Qed.

(** X3: a port count that is zero or negative gives the header row alone,
    in both listings. *)
Theorem nonpositive_ports_header_only (inputData : SpliceConfig) :
  ports_of inputData <= 0 ->
  Api.generateSpliceSheet inputData = Ok [Api.generateHeaders (cables_of inputData)] /\
  Web.generateSpliceSheet inputData = Ok [Web.generateHeaders (cables_of inputData)].
Proof.
  intros H. unfold Api.generateSpliceSheet, Web.generateSpliceSheet.
  replace (Z.to_nat (ports_of inputData)) with 0%nat by lia.
  split; reflexivity.
Qed.

Lemma nonpositive_ports_header_only_witness :
  ports_of (mkConfig (Some (-3)) None (Some [mkCable "A" 4]) None) <= 0 /\
  Web.generateSpliceSheet (mkConfig (Some (-3)) None (Some [mkCable "A" 4]) None)
  = Ok [[VStr "Port #"; VStr "Main Cable"; VStr "Port #"; VStr "Cable"; VStr "B#";
         VStr "(B)"; VStr "F#"; VStr "(F)"; VStr "MST"; VStr "Address"]].
Proof.
  assert (H : ports_of (mkConfig (Some (-3)) None (Some [mkCable "A" 4]) None) <= 0)
    by (cbn; lia).
  split; [exact H | exact (proj2 (nonpositive_ports_header_only _ H))].
Defined.

(** The cells of a cable the port reaches, with the resolver's formulas. *)
Lemma reached_group_cells (port : Z) (cable : CableBundle) :
  1 <= port -> port <= fiberCount cable ->
  exists bcolor fcolor,
    nth_error BUFFER_COLORS (Z.to_nat (((port - 1) / 12) mod 12)) = Some bcolor /\
    nth_error FIBER_COLORS (Z.to_nat ((port - 1) mod 12)) = Some fcolor /\
    Api.cableCells port cable
    = [VNum port; VStr (name cable); VNum ((port - 1) / 12 + 1); VStr bcolor;
       VNum ((port - 1) mod 12 + 1); VStr fcolor] /\
    Web.cableCells port cable = Api.cableCells port cable.
Proof.
  intros Hp Hc.
  destruct (js_index_in_bounds BUFFER_COLORS (((port - 1) / 12) mod 12))
    as [bc [Nb Jb]]; [apply Z.mod_pos_bound; reflexivity|].
  destruct (js_index_in_bounds FIBER_COLORS ((port - 1) mod 12))
    as [fc [Nf Jf]]; [apply Z.mod_pos_bound; reflexivity|].
  exists bc, fc. split; [exact Nb|]. split; [exact Nf|].
  unfold Api.cableCells, Web.cableCells.
  replace (port <=? fiberCount cable) with true by (symmetry; apply Z.leb_le; exact Hc).
  change (calculateFiberPosition port None)
    with (calculateFiberPosition port (Some 12)).
  rewrite resolve_fields by lia.
  cbn [bufferTube bufferColor fiberNumber fiberColor].
  replace ((port - 1) / 12 + 1 - 1) with ((port - 1) / 12) by lia.
  replace (((port - 1) mod 12 + 1 - 1) mod 12) with ((port - 1) mod 12)
    by (rewrite Z.add_simpl_r, Z.mod_mod by lia; reflexivity).
  rewrite Jb, Jf. split; reflexivity.
Qed.

(** X4: what a cable shows in the row of a port.  In the row of port [p]
    the six cells of the [j]-th cable are, when [p] is within the cable's
    fiber count, [p], the cable's name, tube [(p-1)/12 + 1], that tube's
    colour, fiber [(p-1) mod 12 + 1] and that fiber's colour, the same in
    both listings; beyond the fiber count they are [p], the name and four
    nulls in the first listing, and the name between empty strings in the
    second. *)
Theorem cable_group_at_port (inputData : SpliceConfig) (p : Z) (j : nat)
    (cable : CableBundle) :
  1 <= p <= ports_of inputData ->
  nth_error (cables_of inputData) j = Some cable ->
  exists tableA tableW rowA rowW,
    Api.generateSpliceSheet inputData = Ok tableA /\
    Web.generateSpliceSheet inputData = Ok tableW /\
    row_of_port tableA p = Some rowA /\
    row_of_port tableW p = Some rowW /\
    if p <=? fiberCount cable then
      exists bcolor fcolor,
        nth_error BUFFER_COLORS (Z.to_nat (((p - 1) / 12) mod 12)) = Some bcolor /\
        nth_error FIBER_COLORS (Z.to_nat ((p - 1) mod 12)) = Some fcolor /\
        group_at j rowA
        = [VNum p; VStr (name cable); VNum ((p - 1) / 12 + 1); VStr bcolor;
           VNum ((p - 1) mod 12 + 1); VStr fcolor] /\
        group_at j rowW = group_at j rowA
    else
      group_at j rowA = [VNum p; VStr (name cable); VNull; VNull; VNull; VNull] /\
      group_at j rowW = [VStr ""; VStr (name cable); VStr ""; VStr ""; VStr ""; VStr ""].
Proof.
  intros Hp Hj. do 4 eexists.
  split; [apply api_table_closed|]. split; [apply web_table_closed|].
  split; [apply expectedTable_row; exact Hp|].
  split; [apply expectedTable_row; exact Hp|].
  rewrite !(group_at_dataRow _ _ _ _ _ j cable)
    by (try exact Hj; auto using api_cableCells_named, web_cableCells_named).
  destruct (p <=? fiberCount cable) eqn:E.
  - apply Z.leb_le in E.
    destruct (reached_group_cells p cable ltac:(lia) E) as [bc [fc [Nb [Nf [HA HW]]]]].
    exists bc, fc. repeat split; assumption.
  - apply Z.leb_gt in E. apply unused_group_cells. exact E.
Qed.

Lemma cable_group_at_port_witness :
  1 <= 2 <= ports_of cfg_short_cable /\
  nth_error (cables_of cfg_short_cable) 0 = Some (mkCable "A" 1) /\
  exists tableA tableW rowA rowW,
    Api.generateSpliceSheet cfg_short_cable = Ok tableA /\
    Web.generateSpliceSheet cfg_short_cable = Ok tableW /\
    row_of_port tableA 2 = Some rowA /\
    row_of_port tableW 2 = Some rowW /\
    group_at 0 rowA = [VNum 2; VStr "A"; VNull; VNull; VNull; VNull] /\
    group_at 0 rowW = [VStr ""; VStr "A"; VStr ""; VStr ""; VStr ""; VStr ""].
Proof.
  assert (Hp : 1 <= 2 <= ports_of cfg_short_cable) by (cbn; lia).
  assert (Hj : nth_error (cables_of cfg_short_cable) 0 = Some (mkCable "A" 1))
    by reflexivity.
  split; [exact Hp | split; [exact Hj|]].
  exact (cable_group_at_port cfg_short_cable 2 0 (mkCable "A" 1) Hp Hj).
Defined.

Lemma addressCells_shape (addressInfo : AddressRecord) :
  Api.addressCells addressInfo
  = [prop_str (mst addressInfo); prop_str (address addressInfo)]
    ++ (if truthy (prop_num (sheet addressInfo))
        then [VStr ("SHEET # " ++ to_string (prop_num (sheet addressInfo)))%string]
        else [])
    ++ (if truthy (prop_str (terminal addressInfo))
        then [prop_str (terminal addressInfo)] else []) /\
  Web.addressCells addressInfo
  = [js_or (prop_str (mst addressInfo)) (VStr "");
     js_or (prop_str (address addressInfo)) (VStr "")]
    ++ (if truthy (prop_num (sheet addressInfo))
        then [VStr ("SHEET # " ++ to_string (prop_num (sheet addressInfo)))%string]
        else [])
    ++ (if truthy (prop_str (terminal addressInfo))
        then [prop_str (terminal addressInfo)] else []).
Proof.
  unfold Api.addressCells, Web.addressCells.
  destruct (truthy (prop_num (sheet addressInfo)));
    destruct (truthy (prop_str (terminal addressInfo))); split; reflexivity.
Qed.

(** The row of a port whose cursor record is known, in a closed table. *)
Lemma expectedTable_row_of_record
    (generateHeaders : list CableBundle -> list value)
    (cableCells : Z -> CableBundle -> list value)
    (addressCells : AddressRecord -> list value)
    (inputData : SpliceConfig) (p : Z) (addressInfo : AddressRecord) :
  1 <= p <= ports_of inputData ->
  js_get (addresses_of inputData)
    (Z.min ((p - 1) / 4) (Z.of_nat (List.length (addresses_of inputData)) - 1))
  = Some addressInfo ->
  row_of_port (expectedTable generateHeaders cableCells addressCells inputData) p
  = Some ([VNum p; VStr (mainCableName_of inputData)]
          ++ flat_map (cableCells p) (cables_of inputData)
          ++ addressCells addressInfo).
Proof.
  intros Hp Hget.
  pose proof (js_get_Some_nonempty _ _ _ Hget) as Hr.
  rewrite expectedTable_row by exact Hp.
  rewrite cursor_formula_nonempty by lia.
  unfold dataRow, trailingCells. now rewrite Hget.
Qed.

(** X5: a data row is as long as the header plus one cell when the record
    under the cursor has a sheet that is neither absent nor 0, plus one cell
    when it has a terminal that is neither absent nor empty; the header has
    no column for either. *)
Theorem data_row_longer_than_header (inputData : SpliceConfig) (p : Z)
    (addressInfo : AddressRecord) :
  1 <= p <= ports_of inputData ->
  js_get (addresses_of inputData)
    (Z.min ((p - 1) / 4) (Z.of_nat (List.length (addresses_of inputData)) - 1))
  = Some addressInfo ->
  let extra := (Nat.b2n (truthy (prop_num (sheet addressInfo)))
                + Nat.b2n (truthy (prop_str (terminal addressInfo))))%nat in
  (exists table header row,
     Api.generateSpliceSheet inputData = Ok table /\
     row_of_port table 0 = Some header /\
     row_of_port table p = Some row /\
     List.length row = (List.length header + extra)%nat) /\
  (exists table header row,
     Web.generateSpliceSheet inputData = Ok table /\
     row_of_port table 0 = Some header /\
     row_of_port table p = Some row /\
     List.length row = (List.length header + extra)%nat).
Proof.
  intros Hp Hget extra.
  destruct (addressCells_shape addressInfo) as [SA SW].
  split; do 3 eexists.
  - split; [apply api_table_closed|]. split; [reflexivity|].
    split; [apply expectedTable_row_of_record; eassumption|].
    rewrite api_headers_closed, header_length, !length_app.
    rewrite (groups_length Api.cableCells inputData api_cableCells_named).
    rewrite SA, !length_app. unfold extra.
    destruct (truthy (prop_num (sheet addressInfo)));
      destruct (truthy (prop_str (terminal addressInfo))); cbn; lia.
  - split; [apply web_table_closed|]. split; [reflexivity|].
    split; [apply expectedTable_row_of_record; eassumption|].
    rewrite web_headers_closed, header_length, !length_app.
    rewrite (groups_length Web.cableCells inputData web_cableCells_named).
    rewrite SW, !length_app. unfold extra.
    destruct (truthy (prop_num (sheet addressInfo)));
      destruct (truthy (prop_str (terminal addressInfo))); cbn; lia.
Qed.

Lemma data_row_longer_than_header_witness :
  1 <= 1 <= ports_of cfg_sheet_only /\
  js_get (addresses_of cfg_sheet_only)
    (Z.min ((1 - 1) / 4) (Z.of_nat (List.length (addresses_of cfg_sheet_only)) - 1))
  = Some rec_sheet_only /\
  exists table header row,
    Web.generateSpliceSheet cfg_sheet_only = Ok table /\
    row_of_port table 0 = Some header /\
    row_of_port table 1 = Some row /\
    List.length row = (List.length header + 1)%nat.
Proof.
  assert (Hp : 1 <= 1 <= ports_of cfg_sheet_only) by (cbn; lia).
  assert (Hget : js_get (addresses_of cfg_sheet_only)
                   (Z.min ((1 - 1) / 4)
                      (Z.of_nat (List.length (addresses_of cfg_sheet_only)) - 1))
                 = Some rec_sheet_only) by reflexivity.
  split; [exact Hp | split; [exact Hget|]].
  exact (proj2 (data_row_longer_than_header cfg_sheet_only 1 rec_sheet_only Hp Hget)).
Defined.

(** X6: the cell after the address cell is the sheet label when the record
    under the cursor has a sheet other than 0 (a sheet within the exact
    range, whose label shows all its digits), and otherwise (sheet absent or
    0) it is the record's terminal: the terminal has no column of its own. *)
Theorem terminal_shares_sheet_column (inputData : SpliceConfig) (p : Z)
    (addressInfo : AddressRecord) (term : string) :
  1 <= p <= ports_of inputData ->
  js_get (addresses_of inputData)
    (Z.min ((p - 1) / 4) (Z.of_nat (List.length (addresses_of inputData)) - 1))
  = Some addressInfo ->
  terminal addressInfo = Some term ->
  term <> "" ->
  safe_sheet (sheet addressInfo) ->
  let n := List.length (cables_of inputData) in
  let third :=
    match sheet addressInfo with
    | Some s => if s =? 0 then VStr term else VStr ("SHEET # " ++ decimal s)%string
    | None => VStr term
    end in
  (exists table row,
     Api.generateSpliceSheet inputData = Ok table /\
     row_of_port table p = Some row /\
     nth_error (trailing n row) 2 = Some third) /\
  (exists table row,
     Web.generateSpliceSheet inputData = Ok table /\
     row_of_port table p = Some row /\
     nth_error (trailing n row) 2 = Some third).
Proof.
  intros Hp Hget Hterm Hne _ n third.
  pose proof (js_get_Some_nonempty _ _ _ Hget) as Hr.
  assert (Hcur : js_get (addresses_of inputData)
                   (cursor_formula (Z.of_nat (List.length (addresses_of inputData))) (p - 1))
                 = Some addressInfo)
    by (rewrite cursor_formula_nonempty by lia; exact Hget).
  destruct (addressCells_shape addressInfo) as [SA SW].
  assert (Ht : truthy (prop_str (terminal addressInfo)) = true).
  { rewrite Hterm. cbn. apply negb_true_iff. now apply String.eqb_neq. }
  rewrite Ht, Hterm in SA, SW.
  split.
  - destruct (expectedTable_trailing Api.generateHeaders Api.cableCells Api.addressCells
                inputData p addressInfo api_cableCells_named Hp Hcur) as [row [Hrow Htr]].
    do 2 eexists. split; [apply api_table_closed|]. split; [exact Hrow|].
    unfold n, third. rewrite Htr, SA.
    destruct (sheet addressInfo) as [s|]; cbn [prop_num truthy];
      [destruct (s =? 0)|]; reflexivity.
  - destruct (expectedTable_trailing Web.generateHeaders Web.cableCells Web.addressCells
                inputData p addressInfo web_cableCells_named Hp Hcur) as [row [Hrow Htr]].
    do 2 eexists. split; [apply web_table_closed|]. split; [exact Hrow|].
    unfold n, third. rewrite Htr, SW.
    destruct (sheet addressInfo) as [s|]; cbn [prop_num truthy];
      [destruct (s =? 0)|]; reflexivity.
Qed.

Lemma cursor_formula_preimage (len p i : Z) :
  1 <= p -> 0 <= i < len ->
  cursor_formula len (p - 1) = i <-> 4 * i < p /\ (p <= 4 * i + 4 \/ i = len - 1).
Proof.
  intros Hp Hi. rewrite cursor_formula_nonempty by lia.
  split; intros H; Z.to_euclidean_division_equations; lia.
Qed.

Lemma cursor_at_closed (runPorts : SpliceConfig -> nat -> result LoopState)
    (data : nat -> list (list value))
    (inputData : SpliceConfig) (p idx : Z) :
  (forall n,
     runPorts inputData n
     = Ok {| addressIndex :=
               cursor_formula (Z.of_nat (List.length (addresses_of inputData))) (Z.of_nat n);
             spliceData := data n |}) ->
  1 <= p ->
  cursor_at runPorts inputData p idx
  <-> cursor_formula (Z.of_nat (List.length (addresses_of inputData))) (p - 1) = idx.
Proof.
  intros Hrun Hp. unfold cursor_at. rewrite Hrun.
  replace (Z.of_nat (Z.to_nat (p - 1))) with (p - 1) by lia.
  split.
  - intros [st [E <-]]. injection E as <-. reflexivity.
  - intros <-. eexists. split; reflexivity.
Qed.

(** X7: which ports show a record.  With [len] address records, the cursor
    is at record [i] when the loop reaches port [p] exactly when
    [4i < p <= 4i + 4], or [i] is the last record and [4i < p]: every record
    but the last is shown by at most four ports, the last one by all the
    ports that remain, and a record with [4i >= ports] by none. *)
Theorem ports_showing_record (inputData : SpliceConfig) (p i : Z) :
  1 <= p ->
  0 <= i < Z.of_nat (List.length (addresses_of inputData)) ->
  let len := Z.of_nat (List.length (addresses_of inputData)) in
  (cursor_at Api.runPorts inputData p i
   <-> 4 * i < p /\ (p <= 4 * i + 4 \/ i = len - 1)) /\
  (cursor_at Web.runPorts inputData p i
   <-> 4 * i < p /\ (p <= 4 * i + 4 \/ i = len - 1)).
Proof.
  intros Hp Hi len. split.
  - rewrite (cursor_at_closed Api.runPorts _ inputData p i
               (api_runPorts_closed inputData) Hp).
    now apply cursor_formula_preimage.
  - rewrite (cursor_at_closed Web.runPorts _ inputData p i
               (web_runPorts_closed inputData) Hp).
    now apply cursor_formula_preimage.
Qed.

Lemma ports_showing_record_witness :
  1 <= 9 /\
  0 <= 1 < Z.of_nat (List.length (addresses_of cfg_two_records)) /\
  cursor_at Web.runPorts cfg_two_records 9 1.
Proof.
  assert (Hp : 1 <= 9) by lia.
  assert (Hi : 0 <= 1 < Z.of_nat (List.length (addresses_of cfg_two_records)))
    by (cbn; lia).
  split; [exact Hp | split; [exact Hi|]].
  apply (proj2 (ports_showing_record cfg_two_records 9 1 Hp Hi)).
  cbn. lia.
Defined.

Lemma flat_map_agree {A : Type} (f g : A -> list value) (l : list A) :
  (forall x, In x l -> f x = g x) -> flat_map f l = flat_map g l.
Proof.
  intros H. induction l as [|x l IH]; cbn [flat_map]; [reflexivity|].
  rewrite (H x) by (left; reflexivity).
  rewrite IH; [reflexivity|]. intros y Hy. apply H. now right.
Qed.

Lemma js_or_truthy (v d : value) : truthy v = true -> js_or v d = v.
Proof. intros H. unfold js_or. now rewrite H. Qed.

(** X8: the two listings differ only where something is missing.  When
    every cable has at least [ports] fibers and every address record has a
    non-empty mst and a non-empty address, both listings produce the same
    data rows (their header rows differ in the second label). *)
Theorem listings_agree_on_full_input (inputData : SpliceConfig) :
  (forall cable, In cable (cables_of inputData) ->
                 ports_of inputData <= fiberCount cable) ->
  (forall addressInfo, In addressInfo (addresses_of inputData) ->
                       truthy (prop_str (mst addressInfo)) = true /\
                       truthy (prop_str (address addressInfo)) = true) ->
  exists rows,
    Api.generateSpliceSheet inputData
    = Ok (Api.generateHeaders (cables_of inputData) :: rows) /\
    Web.generateSpliceSheet inputData
    = Ok (Web.generateHeaders (cables_of inputData) :: rows) /\
    List.length rows = Z.to_nat (ports_of inputData).
Proof.
  intros Hcab Haddr. eexists.
  split; [rewrite api_table_closed; reflexivity|].
  split; [|now rewrite length_map, ports_upto_length].
  rewrite web_table_closed. unfold expectedTable. do 2 f_equal.
  apply map_ext_in. intros port Hport.
  apply ports_upto_In in Hport.
  unfold dataRow. f_equal. f_equal.
  - apply flat_map_agree. intros cable Hin.
    unfold Web.cableCells, Api.cableCells.
    specialize (Hcab cable Hin).
    replace (port <=? fiberCount cable) with true
      by (symmetry; apply Z.leb_le; lia).
    reflexivity.
  - unfold trailingCells.
    destruct (js_get (addresses_of inputData) _) as [addressInfo|] eqn:G;
      [|reflexivity].
    destruct (Haddr addressInfo (js_get_In _ _ _ G)) as [Hm Ha].
    unfold Web.addressCells, Api.addressCells.
    now rewrite !js_or_truthy.
Qed.

(** * The sample addresses and the JSON route *)

Lemma map_indexed_nth {A B : Type} (f : A -> Z -> B) (arr : list A) (index : Z) (i : nat) :
  nth_error (map_indexed f arr index) i
  = option_map (fun x => f x (index + Z.of_nat i)) (nth_error arr i).
Proof.
  revert index i. induction arr as [|x arr IH]; intros index i.
  - now destruct i.
  - destruct i as [|i]; cbn [map_indexed nth_error option_map].
    + f_equal. f_equal. lia.
    + rewrite IH. destruct (nth_error arr i); cbn [option_map]; [|reflexivity].
      f_equal. f_equal. lia.
Qed.

Lemma sampleAddresses_nonempty_strings (i : nat) (addr : string) :
  nth_error sampleAddresses i = Some addr -> String.eqb addr "" = false.
Proof.
  intros H.
  assert (F : Forall (fun a => String.eqb a "" = false) sampleAddresses)
    by (repeat constructor).
  apply (proj1 (Forall_forall _ _) F). eapply nth_error_In; eassumption.
Qed.

(** The cells either listing pushes for a sample record. *)
Lemma sampleRecord_cells (addr : string) (index : Z) :
  0 <= index -> String.eqb addr "" = false ->
  let cells :=
    [VStr ("MST_F" ++ decimal (1000 + index) ++ "ECOATSAVE.21082"
           ++ decimal (index mod 10))%string;
     VStr addr;
     VStr ("SHEET # " ++ decimal (index / 3 + 10))%string]
    ++ (if index <? 2 then [VStr ("T" ++ decimal (index + 1))%string] else []) in
  Api.addressCells (sampleRecord addr index) = cells /\
  Web.addressCells (sampleRecord addr index) = cells.
Proof.
  intros Hi Ha cells.
  destruct (addressCells_shape (sampleRecord addr index)) as [SA SW].
  rewrite SA, SW. unfold cells, sampleRecord.
  cbn [mst address sheet terminal prop_str prop_num truthy to_string].
  rewrite Z.rem_mod_nonneg by lia.
  replace (index / 3 + 10 =? 0) with false
    by (symmetry; apply Z.eqb_neq; Z.to_euclidean_division_equations; lia).
  unfold js_or. cbn [truthy]. rewrite Ha.
  cbn [negb].
  destruct (index <? 2); split; reflexivity.
Qed.

Lemma custom_addresses (body : SpliceConfig) :
  addresses_of (customInputData body)
  = if 0 <? Z.of_nat (List.length (addresses_of body))
    then addresses_of body else generateSampleAddresses.
Proof. unfold customInputData, addresses_of. now destruct (addresses body). Qed.

Lemma custom_addresses_nonempty (body : SpliceConfig) :
  0 < Z.of_nat (List.length (addresses_of (customInputData body))).
Proof.
  rewrite custom_addresses.
  destruct (0 <? Z.of_nat (List.length (addresses_of body))) eqn:E.
  - now apply Z.ltb_lt in E.
  - reflexivity.
Qed.

(** X9: the JSON route always has a record to show.  Whatever the body,
    the argument the route builds has at least one address record (the
    body's, or the 14 samples when the body has none).  So when either
    listing builds the table from it, at every port the cursor passes the
    test [addressIndex < addresses.length], the branch that pushes the empty
    string and "Unused" is not taken, and the row carries the mst and the
    address of the record at [min((p-1)/4, len-1)]. *)
Theorem custom_route_shows_a_record (body : SpliceConfig) (p : Z) :
  1 <= p <= ports_of (customInputData body) ->
  let inputData := customInputData body in
  let len := Z.of_nat (List.length (addresses_of inputData)) in
  let n := List.length (cables_of inputData) in
  let k := Z.min ((p - 1) / 4) (len - 1) in
  exists addressInfo,
    js_get (addresses_of inputData) k = Some addressInfo /\
    In addressInfo (if 0 <? Z.of_nat (List.length (addresses_of body))
                    then addresses_of body else generateSampleAddresses) /\
    (k <? len) = true /\
    cursor_at Api.runPorts inputData p k /\
    cursor_at Web.runPorts inputData p k /\
    (exists table row,
       Api.generateSpliceSheet inputData = Ok table /\
       row_of_port table p = Some row /\
       nth_error (trailing n row) 0 = Some (prop_str (mst addressInfo)) /\
       nth_error (trailing n row) 1 = Some (prop_str (address addressInfo))) /\
    (exists table row,
       Web.generateSpliceSheet inputData = Ok table /\
       row_of_port table p = Some row /\
       nth_error (trailing n row) 0 = Some (VStr (text_or_empty (mst addressInfo))) /\
       nth_error (trailing n row) 1 = Some (VStr (text_or_empty (address addressInfo)))).
Proof.
  intros Hp inputData len n k.
  pose proof (custom_addresses_nonempty body) as Hlen. fold inputData len in Hlen.
  assert (Hr : 0 <= k < len).
  { unfold k. assert (0 <= (p - 1) / 4) by (apply Z.div_pos; lia). lia. }
  destruct (js_get_in_range (addresses_of inputData) k Hr) as [addressInfo Hget].
  assert (Hk : cursor_formula len (p - 1) = k)
    by (apply cursor_formula_nonempty; lia).
  assert (Hcur : js_get (addresses_of inputData) (cursor_formula len (p - 1))
                 = Some addressInfo)
    by (rewrite Hk; exact Hget).
  exists addressInfo. split; [exact Hget|].
  split; [rewrite <- custom_addresses; eapply js_get_In; exact Hget|].
  split; [apply Z.ltb_lt; lia|].
  split; [apply (cursor_at_closed Api.runPorts _ inputData p k
                   (api_runPorts_closed inputData)); [lia | exact Hk]|].
  split; [apply (cursor_at_closed Web.runPorts _ inputData p k
                   (web_runPorts_closed inputData)); [lia | exact Hk]|].
  split.
  - destruct (expectedTable_trailing Api.generateHeaders Api.cableCells Api.addressCells
                inputData p addressInfo api_cableCells_named Hp Hcur) as [row [Hrow Htr]].
    do 2 eexists. split; [apply api_table_closed|]. split; [exact Hrow|].
    fold n in Htr. rewrite Htr, api_addressCells_explicit. split; reflexivity.
  - destruct (expectedTable_trailing Web.generateHeaders Web.cableCells Web.addressCells
                inputData p addressInfo web_cableCells_named Hp Hcur) as [row [Hrow Htr]].
    do 2 eexists. split; [apply web_table_closed|]. split; [exact Hrow|].
    fold n in Htr. rewrite Htr, web_addressCells_explicit. split; reflexivity.
Qed.

Lemma sample_record_at (i : Z) :
  0 <= i <= 13 ->
  exists addr,
    nth_error sampleAddresses (Z.to_nat i) = Some addr /\
    js_get generateSampleAddresses i = Some (sampleRecord addr i).
Proof.
  intros Hi.
  destruct (nth_error sampleAddresses (Z.to_nat i)) as [addr|] eqn:N.
  - exists addr. split; [reflexivity|].
    unfold js_get, generateSampleAddresses.
    replace (i <? 0) with false by (symmetry; apply Z.ltb_ge; lia).
    rewrite map_indexed_nth, N. cbn [option_map]. do 2 f_equal. lia.
  - apply nth_error_None in N. cbn in N. lia.
Qed.

(** X10: what the JSON route shows when the body brings no address.  The
    row of port [p] then ends with the cells of sample [i = min((p-1)/4, 13)]:
    its mst [MST_F<1000+i>ECOATSAVE.21082<i mod 10>], its street address, the
    label [SHEET # <floor(i/3)+10>], and for the first two samples only the
    terminal [T<i+1>]; from port 53 on every row shows the last sample. *)
Theorem custom_route_sample_rows (body : SpliceConfig) (p : Z) :
  addresses_of body = [] ->
  1 <= p <= ports_of (customInputData body) ->
  let inputData := customInputData body in
  let n := List.length (cables_of inputData) in
  let i := Z.min ((p - 1) / 4) 13 in
  exists addr,
    nth_error sampleAddresses (Z.to_nat i) = Some addr /\
    let cells :=
      [VStr ("MST_F" ++ decimal (1000 + i) ++ "ECOATSAVE.21082"
             ++ decimal (i mod 10))%string;
       VStr addr;
       VStr ("SHEET # " ++ decimal (i / 3 + 10))%string]
      ++ (if i <? 2 then [VStr ("T" ++ decimal (i + 1))%string] else []) in
    (exists answer row,
       api_customRoute body = Ok answer /\
       row_of_port (answerRows answer) p = Some row /\
       trailing n row = cells) /\
    (exists table row,
       Web.generateSpliceSheet inputData = Ok table /\
       row_of_port table p = Some row /\
       trailing n row = cells).
Proof.
  intros He Hp inputData n i.
  assert (Hi : 0 <= i <= 13).
  { unfold i. assert (0 <= (p - 1) / 4) by (apply Z.div_pos; lia). lia. }
  destruct (sample_record_at i Hi) as [addr [Haddr Hget]].
  exists addr. split; [exact Haddr|].
  assert (Hs : addresses_of inputData = generateSampleAddresses).
  { unfold inputData. rewrite custom_addresses, He. reflexivity. }
  assert (Hcur : js_get (addresses_of inputData)
                   (cursor_formula (Z.of_nat (List.length (addresses_of inputData)))
                      (p - 1))
                 = Some (sampleRecord addr i)).
  { rewrite Hs. rewrite cursor_formula_nonempty by (cbn; lia). exact Hget. }
  destruct (sampleRecord_cells addr i (proj1 Hi)
              (sampleAddresses_nonempty_strings _ _ Haddr)) as [CA CW].
  cbv zeta in CA, CW.
  split.
  - destruct (expectedTable_trailing Api.generateHeaders Api.cableCells Api.addressCells
                inputData p _ api_cableCells_named Hp Hcur) as [row [Hrow Htr]].
    do 2 eexists.
    split; [unfold api_customRoute; fold inputData; rewrite api_table_closed;
            reflexivity|].
    split; [exact Hrow|].
    fold n in Htr. rewrite Htr. exact CA.
  - destruct (expectedTable_trailing Web.generateHeaders Web.cableCells Web.addressCells
                inputData p _ web_cableCells_named Hp Hcur) as [row [Hrow Htr]].
    do 2 eexists. split; [apply web_table_closed|]. split; [exact Hrow|].
    fold n in Htr. rewrite Htr. exact CW.
Qed.

Lemma custom_route_sample_rows_witness :
  addresses_of (mkConfig None None None None) = [] /\
  1 <= 60 <= ports_of (customInputData (mkConfig None None None None)) /\
  exists table row,
    Web.generateSpliceSheet (customInputData (mkConfig None None None None)) = Ok table /\
    row_of_port table 60 = Some row /\
    trailing 2 row
    = [VStr "MST_F1013ECOATSAVE.210823"; VStr "108 E COATS AVE"; VStr "SHEET # 14"].
Proof.
  assert (He : addresses_of (mkConfig None None None None) = []) by reflexivity.
  assert (Hp : 1 <= 60 <= ports_of (customInputData (mkConfig None None None None)))
    by (cbn; lia).
  split; [exact He | split; [exact Hp|]].
  destruct (custom_route_sample_rows (mkConfig None None None None) 60 He Hp)
    as [addr [Haddr [_ HW]]].
  injection Haddr as <-.
  exact HW.
Defined.

(** X11: the summary of the JSON route.  [totalPorts] is the body's port
    count (96 when absent), [cables] the number of cables (2 when absent) and
    [addresses] the number of address records actually used: the body's, or
    14 when the body has none.  The first listing answers with
    [max(totalPorts, 0) + 1] rows, the second with the first ten of them at
    most. *)
Theorem custom_route_summary (body : SpliceConfig) :
  exists answerA answerW,
    api_customRoute body = Ok answerA /\
    web_customRoute body = Ok answerW /\
    answerSummary answerA = answerSummary answerW /\
    answerSummary answerA
    = {| totalPorts := match ports body with Some p => p | None => 96 end;
         summaryCables :=
           match cables body with
           | Some l => Z.of_nat (List.length l)
           | None => 2
           end;
         summaryAddresses :=
           if 0 <? Z.of_nat (List.length (addresses_of body))
           then Z.of_nat (List.length (addresses_of body)) else 14 |} /\
    List.length (answerRows answerA)
    = S (Z.to_nat (totalPorts (answerSummary answerA))) /\
    List.length (answerRows answerW)
    = Nat.min 10 (S (Z.to_nat (totalPorts (answerSummary answerA)))).
Proof.
  do 2 eexists.
  split; [unfold api_customRoute; rewrite api_table_closed; reflexivity|].
  split; [unfold web_customRoute; rewrite web_table_closed; reflexivity|].
  cbn [answerSummary answerRows bind].
  split; [reflexivity|].
  split.
  - unfold customSummary. f_equal.
    + unfold customInputData, cables_of. cbn [cables]. now destruct (cables body).
    + rewrite custom_addresses.
      now destruct (0 <? Z.of_nat (List.length (addresses_of body))).
  - assert (HlA : forall H C A cfg,
               List.length (expectedTable H C A cfg) = S (Z.to_nat (ports_of cfg)))
      by (intros; unfold expectedTable; cbn [List.length];
          now rewrite length_map, ports_upto_length).
    split; [apply HlA|]. unfold slice0.
    rewrite length_firstn, HlA. reflexivity.
Qed.

(** * Concrete instances *)

Lemma terminal_shares_sheet_column_witness :
  1 <= 3 <= ports_of cfg_terminal_only /\
  js_get (addresses_of cfg_terminal_only)
    (Z.min ((3 - 1) / 4) (Z.of_nat (List.length (addresses_of cfg_terminal_only)) - 1))
  = Some rec_terminal_only /\
  terminal rec_terminal_only = Some "T9" /\
  "T9" <> "" /\
  safe_sheet (sheet rec_terminal_only) /\
  exists table row,
    Api.generateSpliceSheet cfg_terminal_only = Ok table /\
    row_of_port table 3 = Some row /\
    nth_error (trailing 1 row) 2 = Some (VStr "T9").
Proof.
  assert (Hp : 1 <= 3 <= ports_of cfg_terminal_only) by (cbn; lia).
  assert (Hget : js_get (addresses_of cfg_terminal_only)
                   (Z.min ((3 - 1) / 4)
                      (Z.of_nat (List.length (addresses_of cfg_terminal_only)) - 1))
                 = Some rec_terminal_only) by reflexivity.
  assert (Ht : terminal rec_terminal_only = Some "T9") by reflexivity.
  assert (Hne : "T9" <> "") by discriminate.
  assert (Hs : safe_sheet (sheet rec_terminal_only)) by exact I.
  split; [exact Hp | split; [exact Hget | split; [exact Ht | split; [exact Hne|]]]].
  split; [exact Hs|].
  exact (proj1 (terminal_shares_sheet_column cfg_terminal_only 3 rec_terminal_only "T9"
                  Hp Hget Ht Hne Hs)).
Defined.

Lemma listings_agree_on_full_input_witness :
  (forall cable, In cable (cables_of cfg_full) -> ports_of cfg_full <= fiberCount cable) /\
  (forall addressInfo, In addressInfo (addresses_of cfg_full) ->
                       truthy (prop_str (mst addressInfo)) = true /\
                       truthy (prop_str (address addressInfo)) = true) /\
  exists rows,
    Api.generateSpliceSheet cfg_full
    = Ok (Api.generateHeaders (cables_of cfg_full) :: rows) /\
    Web.generateSpliceSheet cfg_full
    = Ok (Web.generateHeaders (cables_of cfg_full) :: rows) /\
    List.length rows = Z.to_nat (ports_of cfg_full).
Proof.
  assert (Hc : forall cable, In cable (cables_of cfg_full) ->
                             ports_of cfg_full <= fiberCount cable).
  { intros cable [<- | []]. cbn. lia. }
  assert (Ha : forall addressInfo, In addressInfo (addresses_of cfg_full) ->
                 truthy (prop_str (mst addressInfo)) = true /\
                 truthy (prop_str (address addressInfo)) = true).
  { intros addressInfo [<- | []]. split; reflexivity. }
  split; [exact Hc | split; [exact Ha|]].
  exact (listings_agree_on_full_input cfg_full Hc Ha).
Defined.

Lemma custom_route_shows_a_record_witness :
  1 <= 5 <= ports_of (customInputData body_one_record) /\
  cursor_at Api.runPorts (customInputData body_one_record) 5 0 /\
  exists table row,
    Api.generateSpliceSheet (customInputData body_one_record) = Ok table /\
    row_of_port table 5 = Some row /\
    nth_error (trailing 2 row) 0 = Some (VStr "MST1") /\
    nth_error (trailing 2 row) 1 = Some (VStr "1 ELM ST").
Proof.
  assert (Hp : 1 <= 5 <= ports_of (customInputData body_one_record)) by (cbn; lia).
  split; [exact Hp|].
  destruct (custom_route_shows_a_record body_one_record 5 Hp)
    as [addressInfo [Hget [_ [_ [HcA [_ [HA _]]]]]]].
  injection Hget as <-.
  split; [exact HcA | exact HA].
Defined.

(** * Reading an uploaded sheet *)

Lemma web_forEach_closed (data : list (list value)) (index : Z)
    (st : list Upload.AddressData) :
  Upload.forEach_indexed
    (fun addresses (row : list value) index =>
       if 0 <? Z.of_nat (List.length row)
       then addresses ++ [Upload.Web.addressData row index]
       else addresses) data index st
  = st ++ webRowRecords data index.
Proof.
  revert index st. induction data as [|row data IH]; intros index st;
    cbn [Upload.forEach_indexed webRowRecords].
  - now rewrite app_nil_r.
  - rewrite IH. destruct (0 <? Z.of_nat (List.length row)).
    + now rewrite <- app_assoc.
    + reflexivity.
Qed.

Lemma web_addresses_closed (headers : list value) (data : list (list value)) :
  Upload.addresses (Upload.Web.parseInputStructure headers data)
  = if 0 <? Z.of_nat (List.length (webRowRecords data 0))
    then webRowRecords data 0 else Upload.sampleData.
Proof.
  unfold Upload.Web.parseInputStructure. cbn [Upload.addresses].
  now rewrite web_forEach_closed.
Qed.

Lemma webRowRecords_length (data : list (list value)) (index : Z) :
  List.length (webRowRecords data index)
  = List.length (filter (fun row : list value => 0 <? Z.of_nat (List.length row)) data).
Proof.
  revert index. induction data as [|row data IH]; intros index;
    cbn [webRowRecords filter]; [reflexivity|].
  rewrite length_app, IH.
  now destruct (0 <? Z.of_nat (List.length row)).
Qed.

Lemma webRowRecords_In (data : list (list value)) (index : Z) (k : nat)
    (row : list value) :
  nth_error data k = Some row -> row <> [] ->
  In (Upload.Web.addressData row (index + Z.of_nat k)) (webRowRecords data index).
Proof.
  revert index k. induction data as [|r data IH]; intros index k Hk Hne.
  - destruct k; discriminate.
  - cbn [webRowRecords]. apply in_or_app. destruct k as [|k]; cbn [nth_error] in Hk.
    + injection Hk as ->. left.
      replace (0 <? Z.of_nat (List.length row)) with true
        by (symmetry; apply Z.ltb_lt; destruct row; [congruence | cbn; lia]).
      replace (index + Z.of_nat 0) with index by lia. now left.
    + right. replace (index + Z.of_nat (S k)) with (index + 1 + Z.of_nat k) by lia.
      now apply IH.
Qed.

Lemma webRowRecords_from_row (data : list (list value)) (index : Z)
    (r : Upload.AddressData) :
  In r (webRowRecords data index) ->
  exists row k, r = Upload.Web.addressData row k.
Proof.
  revert index. induction data as [|row data IH]; intros index H;
    cbn [webRowRecords] in H; [contradiction|].
  apply in_app_or in H. destruct H as [H|H].
  - destruct (0 <? Z.of_nat (List.length row)); [|contradiction].
    destruct H as [<-|[]]. now exists row, index.
  - eapply IH. exact H.
Qed.

Lemma truthy_js_or (v d : value) : truthy d = true -> truthy (js_or v d) = true.
Proof. intros H. unfold js_or. destruct (truthy v) eqn:E; assumption. Qed.

Lemma sampleData_filled (r : Upload.AddressData) :
  In r Upload.sampleData ->
  truthy (Upload.mst r) = true /\ truthy (Upload.address r) = true.
Proof.
  intros H.
  assert (F : Forall (fun r => truthy (Upload.mst r) = true
                               /\ truthy (Upload.address r) = true)
                Upload.sampleData)
    by (repeat constructor).
  exact (proj1 (Forall_forall _ _) F r H).
Qed.

(** X12: what the second listing makes of an uploaded sheet is never
    empty: whatever the header cells and the rows, [parseInputStructure]
    returns [max(96, data.length)] ports, at least one cable and at least
    one address object, and no address object has a blank mst or a blank
    address. *)
Theorem web_upload_is_filled (headers : list value) (data : list (list value)) :
  let inputData := Upload.Web.parseInputStructure headers data in
  Upload.ports inputData = Z.max 96 (Z.of_nat (List.length data)) /\
  Upload.cables inputData <> [] /\
  Upload.addresses inputData <> [] /\
  (forall r, In r (Upload.addresses inputData) ->
             truthy (Upload.mst r) = true /\ truthy (Upload.address r) = true).
Proof.
  intros inputData. split; [|split; [|split]].
  - unfold inputData, Upload.Web.parseInputStructure. cbn [Upload.ports].
    destruct (0 <? Z.of_nat (List.length data)) eqn:E; [reflexivity|].
    apply Z.ltb_ge in E. lia.
  - unfold inputData, Upload.Web.parseInputStructure. cbn [Upload.cables].
    match goal with
    | |- (if 0 <? Z.of_nat (List.length ?l) then _ else _) <> [] =>
        destruct l; cbn; discriminate
    end.
  - unfold inputData. rewrite web_addresses_closed.
    destruct (webRowRecords data 0); cbn; discriminate.
  - intros r. unfold inputData. rewrite web_addresses_closed.
    destruct (0 <? Z.of_nat (List.length (webRowRecords data 0))).
    + intros H. apply webRowRecords_from_row in H. destruct H as [row [k ->]].
      cbn [Upload.Web.addressData Upload.mst Upload.address].
      split; apply truthy_js_or; reflexivity.
    + apply sampleData_filled.
Qed.

(** X13: one address object per row that has cells, numbered by the row's
    place in the sheet.  If at least one data row has cells, the second
    listing returns as many address objects as there are such rows, and the
    object of the row at position [k] is built with index [k] (rows without
    cells are skipped but still counted), so that an empty address cell
    gives "Unused", an empty mst cell the mst [MST_F<1000+k>...], an empty
    sheet cell the sheet [floor(k/3)+10]. *)
Theorem web_upload_row_objects (headers : list value) (data : list (list value))
    (k : nat) (row : list value) :
  nth_error data k = Some row ->
  row <> [] ->
  let inputData := Upload.Web.parseInputStructure headers data in
  let r := Upload.Web.addressData row (Z.of_nat k) in
  List.length (Upload.addresses inputData)
  = List.length (filter (fun row : list value => 0 <? Z.of_nat (List.length row)) data) /\
  In r (Upload.addresses inputData) /\
  (truthy (js_cell row 5) = false -> Upload.address r = VStr "Unused") /\
  (truthy (js_cell row 4) = false ->
   Upload.mst r = VStr ("MST_F" ++ decimal (1000 + Z.of_nat k) ++ "ECOATSAVE.21082"
                        ++ decimal (Z.of_nat k mod 10))%string) /\
  (truthy (js_cell row 6) = false -> Upload.sheet r = VNum (Z.of_nat k / 3 + 10)).
Proof.
  intros Hk Hne inputData r.
  pose proof (webRowRecords_In data 0 k row Hk Hne) as Hin.
  replace (0 + Z.of_nat k) with (Z.of_nat k) in Hin by lia.
  assert (Hpos : (0 <? Z.of_nat (List.length (webRowRecords data 0))) = true).
  { apply Z.ltb_lt. destruct (webRowRecords data 0); [contradiction | cbn; lia]. }
  unfold inputData. rewrite web_addresses_closed, Hpos.
  split; [apply webRowRecords_length|]. split; [exact Hin|].
  unfold r, Upload.Web.addressData, js_or.
  cbn [Upload.address Upload.mst Upload.sheet].
  rewrite Z.rem_mod_nonneg by lia.
  repeat split; intros ->; reflexivity.
Qed.

Lemma web_upload_row_objects_witness :
  nth_error [[VNum 1]; []; [VNum 3; VUndef; VUndef; VUndef; VStr "M3"]] 2
  = Some [VNum 3; VUndef; VUndef; VUndef; VStr "M3"] /\
  [VNum 3; VUndef; VUndef; VUndef; VStr "M3"] <> [] /\
  In (Upload.mkAddressData (VStr "M3") (VStr "Unused") (VNum 10) VUndef)
     (Upload.addresses
        (Upload.Web.parseInputStructure []
           [[VNum 1]; []; [VNum 3; VUndef; VUndef; VUndef; VStr "M3"]])).
Proof.
  assert (Hk : nth_error [[VNum 1]; []; [VNum 3; VUndef; VUndef; VUndef; VStr "M3"]] 2
               = Some [VNum 3; VUndef; VUndef; VUndef; VStr "M3"]) by reflexivity.
  assert (Hne : [VNum 3; VUndef; VUndef; VUndef; VStr "M3"] <> []) by discriminate.
  split; [exact Hk | split; [exact Hne|]].
  exact (proj1 (proj2 (web_upload_row_objects [] _ 2 _ Hk Hne))).
Defined.

(** ** The fiber count read from a header *)

Lemma string_app_assoc (a b c : string) :
  ((a ++ b) ++ c)%string = (a ++ (b ++ c))%string.
Proof. induction a as [|x a IH]; cbn; [reflexivity | now rewrite IH]. Qed.

Lemma string_app_nil_r (a : string) : (a ++ "")%string = a.
Proof. induction a as [|x a IH]; cbn; [reflexivity | now rewrite IH]. Qed.

Lemma all_chars_app (ok : ascii -> bool) (a b : string) :
  all_chars ok (a ++ b)%string = all_chars ok a && all_chars ok b.
Proof.
  induction a as [|x a IH]; cbn [all_chars String.append]; [reflexivity|].
  now rewrite IH, andb_assoc.
Qed.

Lemma is_F_not_digit (c : ascii) : is_F c = true -> is_digit c = false.
Proof.
  unfold is_F, is_digit, char_between. intros H.
  apply orb_true_iff in H. destruct H as [H|H]; apply Nat.eqb_eq in H;
    rewrite H; reflexivity.
Qed.

(** A run of digits is read into the accumulator. *)
Lemma match_digits_F_run (digits run rest : string) :
  all_chars is_digit digits = true ->
  match_digits_F run (digits ++ rest)%string
  = match_digits_F (run ++ digits)%string rest.
Proof.
  revert run. induction digits as [|c digits IH]; intros run Hd.
  - cbn [String.append]. now rewrite string_app_nil_r.
  - cbn [all_chars] in Hd. apply andb_true_iff in Hd. destruct Hd as [Hc Hd].
    cbn [String.append match_digits_F]. rewrite Hc, IH by exact Hd.
    now rewrite string_app_assoc.
Qed.

(** Text without digits leaves the search where it started. *)
Lemma match_digits_F_skip (pre rest : string) :
  all_chars (fun c => negb (is_digit c)) pre = true ->
  match_digits_F "" (pre ++ rest)%string = match_digits_F "" rest.
Proof.
  induction pre as [|c pre IH]; intros Hp; [reflexivity|].
  cbn [all_chars] in Hp. apply andb_true_iff in Hp. destruct Hp as [Hc Hp].
  apply negb_true_iff in Hc.
  cbn [String.append match_digits_F]. rewrite Hc.
  cbn [String.eqb negb]. rewrite andb_false_r. now apply IH.
Qed.

Lemma match_digits_F_found (pre digits post : string) (c : ascii) :
  all_chars (fun ch => negb (is_digit ch)) pre = true ->
  digits <> EmptyString ->
  all_chars is_digit digits = true ->
  is_F c = true ->
  match_digits_F "" (pre ++ digits ++ String c post)%string = Some digits.
Proof.
  intros Hpre Hne Hd HF.
  rewrite match_digits_F_skip by exact Hpre.
  rewrite match_digits_F_run by exact Hd.
  cbn [String.append match_digits_F].
  rewrite (is_F_not_digit c HF). fold (is_F c). rewrite HF.
  replace (String.eqb digits "") with false
    by (symmetry; apply String.eqb_neq; exact Hne).
  reflexivity.
Qed.

(** X14: the fiber count the second listing reads from a header.  A text
    header that contains "cable" in any case and has the shape
    [pre ++ digits ++ "F" ++ post] (or "f"), where [pre] has no digit and
    [digits] is a non-empty run of digits that denotes a number up to
    [MAX_SAFE_INTEGER], becomes a cable named after the whole header with
    [digits], read in base 10, as its fiber count. *)
Theorem web_header_fiber_count (pre digits post : string) (c : ascii) :
  let header := (pre ++ digits ++ String c post)%string in
  includes (toLowerCase header) "cable" = true ->
  all_chars (fun ch => negb (is_digit ch)) pre = true ->
  digits <> EmptyString ->
  all_chars is_digit digits = true ->
  digits_value 0 digits <= MAX_SAFE_INTEGER ->
  is_F c = true ->
  Upload.Web.cableOfHeader (VStr header)
  = Some {| name := header; fiberCount := digits_value 0 digits |}.
Proof.
  intros header Hcable Hpre Hne Hd _ HF.
  assert (Ht : truthy (VStr header) = true).
  { cbn [truthy]. apply negb_true_iff, String.eqb_neq. intros E.
    rewrite E in Hcable. discriminate. }
  unfold Upload.Web.cableOfHeader. rewrite Hcable, Ht. cbn [andb].
  subst header. now rewrite match_digits_F_found.
Qed.

Lemma web_header_fiber_count_witness :
  includes (toLowerCase ("Cable " ++ "48" ++ String "F" "(3)")) "cable" = true /\
  all_chars (fun ch => negb (is_digit ch)) "Cable " = true /\
  "48" <> EmptyString /\
  all_chars is_digit "48" = true /\
  digits_value 0 "48" <= MAX_SAFE_INTEGER /\
  is_F "F" = true /\
  Upload.Web.cableOfHeader (VStr "Cable 48F(3)") = Some (mkCable "Cable 48F(3)" 48).
Proof.
  assert (H1 : includes (toLowerCase ("Cable " ++ "48" ++ String "F" "(3)")) "cable" = true)
    by reflexivity.
  assert (H2 : all_chars (fun ch => negb (is_digit ch)) "Cable " = true) by reflexivity.
  assert (H3 : "48" <> EmptyString) by discriminate.
  assert (H4 : all_chars is_digit "48" = true) by reflexivity.
  assert (H5 : digits_value 0 "48" <= MAX_SAFE_INTEGER)
    by (change (48 <= 9007199254740991); lia).
  assert (H6 : is_F "F" = true) by reflexivity.
  repeat (split; [assumption|]).
  exact (web_header_fiber_count "Cable " "48" "(3)" "F" H1 H2 H3 H4 H5 H6).
Defined.

Lemma digits_value_nonneg (digits : string) (acc : Z) :
  all_chars is_digit digits = true -> 0 <= acc -> 0 <= digits_value acc digits.
Proof.
  revert acc. induction digits as [|c digits IH]; intros acc Hd Ha;
    cbn [digits_value]; [exact Ha|].
  cbn [all_chars] in Hd. apply andb_true_iff in Hd. destruct Hd as [Hc Hd].
  apply IH; [exact Hd|].
  unfold is_digit, char_between in Hc.
  apply andb_true_iff in Hc. destruct Hc as [Hc _]. apply Nat.leb_le in Hc.
  unfold digit_of. lia.
Qed.

Lemma match_digits_F_digits (s run digits : string) :
  all_chars is_digit run = true ->
  match_digits_F run s = Some digits ->
  all_chars is_digit digits = true.
Proof.
  revert run. induction s as [|c s IH]; intros run Hrun H;
    cbn [match_digits_F] in H; [discriminate|].
  destruct (is_digit c) eqn:D.
  - apply (IH (run ++ String c "")%string); [|exact H].
    rewrite all_chars_app, Hrun. cbn [all_chars]. now rewrite D.
  - destruct (((nat_of_ascii c =? 70)%nat || (nat_of_ascii c =? 102)%nat)
              && negb (String.eqb run "")).
    + injection H as <-. exact Hrun.
    + apply (IH EmptyString); [reflexivity | exact H].
Qed.

Lemma match_digits_F_without_F (s run : string) :
  all_chars (fun c => negb (is_F c)) s = true ->
  match_digits_F run s = None.
Proof.
  revert run. induction s as [|c s IH]; intros run Hs; [reflexivity|].
  cbn [all_chars] in Hs. apply andb_true_iff in Hs. destruct Hs as [Hc Hs].
  apply negb_true_iff in Hc. unfold is_F in Hc.
  cbn [match_digits_F]. rewrite Hc. cbn [andb].
  destruct (is_digit c); now apply IH.
Qed.

Lemma web_cableOfHeader_facts (header : value) (cable : CableBundle) :
  Upload.Web.cableOfHeader header = Some cable ->
  header = VStr (name cable) /\
  includes (toLowerCase (name cable)) "cable" = true /\
  0 <= fiberCount cable /\
  (fiberCount cable = 144
   \/ all_chars (fun c => negb (is_F c)) (name cable) = false).
Proof.
  unfold Upload.Web.cableOfHeader.
  destruct header as [| |n| |b|s]; try discriminate.
  destruct (truthy (VStr s) && includes (toLowerCase s) "cable") eqn:E;
    [|discriminate].
  apply andb_true_iff in E. destruct E as [_ Hc].
  intros H. injection H as <-. cbn [name fiberCount].
  split; [reflexivity|]. split; [exact Hc|].
  destruct (match_digits_F "" s) as [digits|] eqn:M.
  - split.
    + apply digits_value_nonneg; [|lia].
      now apply (match_digits_F_digits s "" digits).
    + right. destruct (all_chars (fun c => negb (is_F c)) s) eqn:A; [|reflexivity].
      rewrite (match_digits_F_without_F s "" A) in M. discriminate.
  - split; [lia | now left].
Qed.

Lemma web_cables_fold (headers : list value) (init : list CableBundle)
    (cable : CableBundle) :
  In cable
    (fold_left (fun cables header =>
                  match Upload.Web.cableOfHeader header with
                  | Some cable => cables ++ [cable]
                  | None => cables
                  end) headers init) ->
  In cable init
  \/ exists header, In header headers /\ Upload.Web.cableOfHeader header = Some cable.
Proof.
  revert init. induction headers as [|h headers IH]; intros init H;
    cbn [fold_left] in H; [now left|].
  apply IH in H. destruct H as [H | [header [Hin Hc]]].
  - destruct (Upload.Web.cableOfHeader h) as [c|] eqn:E.
    + apply in_app_or in H. destruct H as [H | [<- | []]].
      * now left.
      * right. exists h. split; [now left | exact E].
    + now left.
  - right. exists header. split; [now right | exact Hc].
Qed.

(** X15: the cables the second listing returns for a sheet.  No cable has
    a negative fiber count, and every cable is either one of the four
    default cables or named after a header cell whose text contains "cable"
    in any case; such a cable has 144 fibers unless its name contains an
    "F" or "f". *)
Theorem web_upload_cables (headers : list value) (data : list (list value))
    (cable : CableBundle) :
  In cable (Upload.cables (Upload.Web.parseInputStructure headers data)) ->
  0 <= fiberCount cable /\
  (In cable uploadDefaultCables
   \/ (In (VStr (name cable)) headers /\
       includes (toLowerCase (name cable)) "cable" = true /\
       (fiberCount cable = 144
        \/ all_chars (fun c => negb (is_F c)) (name cable) = false))).
Proof.
  unfold Upload.Web.parseInputStructure. cbn [Upload.cables].
  match goal with
  | |- In _ (if 0 <? Z.of_nat (List.length ?l) then _ else _) -> _ =>
      set (found := l); destruct (0 <? Z.of_nat (List.length found))
  end.
  - intros H. apply web_cables_fold in H.
    destruct H as [[] | [header [Hin Hc]]].
    destruct (web_cableOfHeader_facts header cable Hc) as [-> [Hi [Hn Hf]]].
    split; [exact Hn|]. right. repeat split; assumption.
  - intros H. split; [|now left].
    cbn in H. intuition (subst; cbn; lia).
Qed.

Lemma web_upload_cables_witness :
  In (mkCable "Cable 48F" 48)
     (Upload.cables (Upload.Web.parseInputStructure
                       [VStr "Ports"; VStr "Cable 48F"; VNum 7] [])) /\
  0 <= fiberCount (mkCable "Cable 48F" 48).
Proof.
  assert (H : In (mkCable "Cable 48F" 48)
                (Upload.cables (Upload.Web.parseInputStructure
                                  [VStr "Ports"; VStr "Cable 48F"; VNum 7] [])))
    by (left; reflexivity).
  split; [exact H | exact (proj1 (web_upload_cables _ _ _ H))].
Defined.

(** ** The first listing's reader *)

Lemma api_cableOfHeader_raises (header : value) :
  Upload.Api.cableOfHeader header = TypeError <-> breaks_api_header header = true.
Proof.
  unfold Upload.Api.cableOfHeader, breaks_api_header.
  destruct (truthy header) eqn:T; cbn [andb].
  - destruct header; try (split; [reflexivity | reflexivity]).
    destruct (includes (toLowerCase s) "cable");
      [destruct (matches_cable_number s)|]; split; discriminate.
  - split; discriminate.
Qed.

Lemma api_headerCables_result (headers : list value) (init : list CableBundle) :
  if existsb breaks_api_header headers
  then Upload.Api.headerCables headers init = TypeError
  else exists cables,
         Upload.Api.headerCables headers init = Ok cables /\
         forall cable, In cable cables -> In cable init \/ fiberCount cable = 144.
Proof.
  revert init. induction headers as [|h headers IH]; intros init;
    cbn [existsb Upload.Api.headerCables].
  - exists init. split; [reflexivity | now left].
  - destruct (breaks_api_header h) eqn:B; cbn [orb].
    + apply api_cableOfHeader_raises in B. now rewrite B.
    + destruct (Upload.Api.cableOfHeader h) as [found|] eqn:E;
        [|apply api_cableOfHeader_raises in E; congruence].
      cbn [bind].
      specialize (IH (match found with
                      | Some cable => init ++ [cable]
                      | None => init
                      end)).
      destruct (existsb breaks_api_header headers); [exact IH|].
      destruct IH as [cables [Hc Hin]]. exists cables. split; [exact Hc|].
      intros cable Hcable. destruct (Hin cable Hcable) as [H|H]; [|now right].
      destruct found as [c|]; [|now left].
      apply in_app_or in H. destruct H as [H | [<- | []]]; [now left|].
      right. unfold Upload.Api.cableOfHeader in E.
      destruct (truthy h); [|discriminate].
      destruct h; try discriminate.
      destruct (includes (toLowerCase s) "cable");
        [destruct (matches_cable_number s)|]; try discriminate.
      injection E as <-. reflexivity.
Qed.

(** X16: the first listing cannot read a sheet whose header row holds a
    number.  Its [parseInputStructure] raises exactly when some header cell
    is truthy without being text (a number other than 0): the test at line
    155 calls [toLowerCase] on it. *)
Theorem api_upload_raises_on_numeric_header (draws : nat -> Z)
    (headers : list value) (data : list (list value)) :
  Upload.Api.parseInputStructure draws headers data = TypeError
  <-> exists header, In header headers /\ breaks_api_header header = true.
Proof.
  unfold Upload.Api.parseInputStructure.
  pose proof (api_headerCables_result headers []) as H.
  rewrite <- existsb_exists.
  destruct (existsb breaks_api_header headers).
  - rewrite H. cbn [bind]. split; reflexivity.
  - destruct H as [cables [-> _]]. cbn [bind]. split; discriminate.
Qed.

Lemma api_rows_fold (draws : nat -> Z) (data : list (list value))
    (init : list Upload.AddressData) (r : Upload.AddressData) :
  In r (fold_left
          (fun addresses (row : list value) =>
             if 0 <? Z.of_nat (List.length row)
             then addresses ++ [Upload.Api.addressData (draws (List.length addresses)) row]
             else addresses) data init) ->
  In r init \/ exists draw row, r = Upload.Api.addressData draw row.
Proof.
  revert init. induction data as [|row data IH]; intros init H;
    cbn [fold_left] in H; [now left|].
  apply IH in H. destruct H as [H|H]; [|now right].
  destruct (0 <? Z.of_nat (List.length row)); [|now left].
  apply in_app_or in H. destruct H as [H | [<- | []]]; [now left|].
  right. now do 2 eexists.
Qed.

(** X17: what the first listing makes of a sheet it can read.  The port
    count is always 360 and every cable has at most 144 fibers, so for each
    port above 144 the builder of the first listing pushes an unused group
    for every cable; there is at least one cable and one address object, and
    no address object has a blank address. *)
Theorem api_upload_shape (draws : nat -> Z) (headers : list value)
    (data : list (list value)) (inputData : Upload.InputData) :
  Upload.Api.parseInputStructure draws headers data = Ok inputData ->
  Upload.ports inputData = 360 /\
  Upload.cables inputData <> [] /\
  Upload.addresses inputData <> [] /\
  (forall cable, In cable (Upload.cables inputData) ->
     fiberCount cable <= 144 /\
     forall port, 144 < port ->
       Api.cableCells port cable
       = [VNum port; VStr (name cable); VNull; VNull; VNull; VNull]) /\
  (forall r, In r (Upload.addresses inputData) -> truthy (Upload.address r) = true).
Proof.
  unfold Upload.Api.parseInputStructure.
  pose proof (api_headerCables_result headers []) as Hc.
  destruct (existsb breaks_api_header headers); [rewrite Hc; discriminate|].
  destruct Hc as [cables [-> Hcab]]. cbn [bind].
  intros H. injection H as <-.
  cbn [Upload.ports Upload.cables Upload.addresses].
  split; [reflexivity|].
  split; [destruct cables; cbn; discriminate|].
  split.
  { match goal with
    | |- (if 0 <? Z.of_nat (List.length ?l) then _ else _) <> [] =>
        destruct l; cbn; discriminate
    end. }
  split.
  - intros cable Hin.
    assert (Hle : fiberCount cable <= 144).
    { destruct (0 <? Z.of_nat (List.length cables)).
      - destruct (Hcab cable Hin) as [[] | ->]. lia.
      - cbn in Hin. intuition (subst; cbn; lia). }
    split; [exact Hle|]. intros port Hp.
    apply unused_group_cells. lia.
  - intros r.
    match goal with
    | |- In _ (if 0 <? Z.of_nat (List.length ?l) then _ else _) -> _ =>
        set (found := l); destruct (0 <? Z.of_nat (List.length found))
    end.
    + intros H. apply api_rows_fold in H.
      destruct H as [[] | [draw [row ->]]].
      cbn [Upload.Api.addressData Upload.address]. now apply truthy_js_or.
    + intros H. now apply sampleData_filled.
Qed.

Lemma api_upload_shape_witness :
  Upload.Api.parseInputStructure (fun _ => 7) [VStr "Cable 1"; VStr "MST"]
    [[VNum 1; VUndef; VUndef; VUndef; VStr "M1"; VStr "1 ELM ST"; VNum 2; VStr "T1"]]
  = Ok (Upload.mkInputData 360 None [mkCable "Cable 1" 144]
          [Upload.mkAddressData (VStr "M1") (VStr "1 ELM ST") (VNum 7) (VNum 2)]) /\
  Upload.ports
    (Upload.mkInputData 360 None [mkCable "Cable 1" 144]
       [Upload.mkAddressData (VStr "M1") (VStr "1 ELM ST") (VNum 7) (VNum 2)]) = 360.
Proof.
  assert (H : Upload.Api.parseInputStructure (fun _ => 7) [VStr "Cable 1"; VStr "MST"]
                [[VNum 1; VUndef; VUndef; VUndef; VStr "M1"; VStr "1 ELM ST"; VNum 2;
                  VStr "T1"]]
              = Ok (Upload.mkInputData 360 None [mkCable "Cable 1" 144]
                      [Upload.mkAddressData (VStr "M1") (VStr "1 ELM ST") (VNum 7)
                         (VNum 2)])) by reflexivity.
  split; [exact H | exact (proj1 (api_upload_shape _ _ _ _ H))].
Defined.

(** X18: a sheet without any row.  The first listing takes [data[0]], which
    is [undefined], as the header row and raises; the second listing reads
    it as no headers and no data and returns 96 ports, the four default
    cables and the 14 sample addresses.  A sheet with a header row only
    gives the second listing 96 ports and the sample addresses as well. *)
Theorem upload_of_empty_sheet (draws : nat -> Z) (headers : list value) :
  Upload.Api.parseSheet draws [] = TypeError /\
  Upload.Web.parseSheet []
  = Upload.mkInputData 96 (Some "FDH108_144F_1-96") uploadDefaultCables
      Upload.sampleData /\
  Upload.ports (Upload.Web.parseSheet [headers]) = 96 /\
  Upload.addresses (Upload.Web.parseSheet [headers]) = Upload.sampleData.
Proof. repeat split. Qed.
